(** * Credential probing and uptime reporting of github-readme-stats

    A shallow embedding of the two diagnostic Netlify functions
    - [netlify/functions/status/pat-info.js] (the Status Prober) and
    - the uptime function (the Uptime Reporter),
    together with a model of the credential-rotation Retryer, whose source
    file [src/common/retryer.js] is not part of the sources at hand.

    Conventions of the embedding.
    - A JavaScript string is a [string]: a sequence of code units below 256.
      On such strings the default order of [Array.prototype.sort] (code unit
      by code unit) is [String.leb].
    - A JavaScript object used as a map is an association list in insertion
      order ([JsObject]); [Object.keys] is the list of its keys.  Keys that
      are canonical array indices, which JavaScript enumerates first, do not
      occur: every key in play contains a letter.
    - A promise is a computation in the monad [M]: it threads a state and
      either completes normally or throws. *)

From Stdlib Require Import String Ascii List ZArith Bool Lia.
From Stdlib Require Import Sorted Permutation Orders Mergesort DecimalString.
Import ListNotations.
Local Open Scope list_scope.
Local Open Scope string_scope.

Set Warnings "-register-all".

Set Implicit Arguments.

(* ===================================================================== *)
(** * JavaScript values used by the functions *)
(* ===================================================================== *)

Module Js.

(** An object as an insertion-ordered map with string keys. *)
Definition JsObject (V : Type) : Type := list (string * V).

Section Object.
Context {V : Type}.

(** [o[k]]: [None] is [undefined]. *)
Fixpoint get (k : string) (o : JsObject V) : option V :=
  match o with
  | [] => None
  | (k', v) :: o' => if String.eqb k k' then Some v else get k o'
  end.

(** [o[k] = v]: an existing key keeps its place, a new key goes last. *)
Fixpoint set (k : string) (v : V) (o : JsObject V) : JsObject V :=
  match o with
  | [] => [(k, v)]
  | (k', v') :: o' =>
      if String.eqb k k' then (k, v) :: o' else (k', v') :: set k v o'
  end.

(** [Object.keys(o)]. *)
Definition keys (o : JsObject V) : list string := map fst o.
End Object.

(** A number that is an integer or [NaN] ([None]). *)
Definition Number : Type := option Z.

(** [String(n)] for such a number. *)
Definition Number_toString (n : Number) : string :=
  match n with
  | Some z => NilZero.string_of_int (Z.to_int z)
  | None => "NaN"
  end.

(** [String(b)] for a boolean. *)
Definition Boolean_toString (b : bool) : string :=
  if b then "true" else "false".

(** A [Date]: its time value in milliseconds, [None] for an invalid date. *)
Definition Date : Type := option Z.

(** [String.prototype.toLowerCase] on code units below 256. *)
Definition lower_unit (c : ascii) : ascii :=
  let n := nat_of_ascii c in
  if ((65 <=? n) && (n <=? 90))%nat then ascii_of_nat (n + 32)
  else if ((192 <=? n) && (n <=? 222) && negb (n =? 215))%nat
       then ascii_of_nat (n + 32)
  else c.

Fixpoint toLowerCase (s : string) : string :=
  match s with
  | EmptyString => EmptyString
  | String c s' => String (lower_unit c) (toLowerCase s')
  end.

(** A thrown value, as far as the functions look into it:
    [err.message] and [err.response?.data?.message]. *)
Record Error : Type := mkError {
  message : string;
  response_data_message : option string
}.

(** The [TypeError] raised by a property access on [undefined]. *)
Definition TypeError (msg : string) : Error :=
  {| message := msg; response_data_message := None |}.

End Js.

Import Js.

(* ===================================================================== *)
(** * Promises: state and exceptions *)
(* ===================================================================== *)

Inductive Completion (E A : Type) : Type :=
| Normal (a : A)
| Throw (e : E).
Arguments Normal {E A} a.
Arguments Throw {E A} e.

Definition M (E S A : Type) : Type := S -> Completion E A * S.

Section Monad.
Context {E S : Type}.

Definition ret {A} (a : A) : M E S A := fun s => (Normal a, s).

Definition throw {A} (e : E) : M E S A := fun s => (Throw e, s).

Definition bind {A B} (m : M E S A) (k : A -> M E S B) : M E S B :=
  fun s =>
    match m s with
    | (Normal a, s') => k a s'
    | (Throw e, s') => (Throw e, s')
    end.

(** [try { body } catch (err) { handler }]. *)
Definition try_catch {A} (body : M E S A) (handler : E -> M E S A)
  : M E S A :=
  fun s =>
    match body s with
    | (Normal a, s') => (Normal a, s')
    | (Throw e, s') => handler e s'
    end.

(** [for (const x of xs) { acc = body(x, acc) }]: a throw leaves the loop. *)
Fixpoint for_of {X A} (xs : list X) (body : X -> A -> M E S A) (acc : A)
  : M E S A :=
  match xs with
  | [] => ret acc
  | x :: xs' => bind (body x acc) (for_of xs' body)
  end.
End Monad.

Declare Scope js_scope.
Delimit Scope js_scope with js.
Notation "x <- m ;; k" := (bind m (fun x => k))
  (at level 100, m at next level, right associativity) : js_scope.
Local Open Scope js_scope.

(* ===================================================================== *)
(** * JSON text *)
(* ===================================================================== *)

Module Json.

(** The values handed to [JSON.stringify].  A property whose value is
    [undefined] ([None]) is left out of the text. *)
Inductive Value : Type :=
| Null
| Bool (b : bool)
| Num (n : Number)
| Str (s : string)
| Arr (items : list Value)
| Obj (properties : list (string * option Value)).

Definition quotation_mark : ascii := ascii_of_nat 34.
Definition reverse_solidus : ascii := ascii_of_nat 92.
Definition line_feed : string := String (ascii_of_nat 10) "".

Definition hex_digit (n : nat) : ascii :=
  if (n <? 10)%nat then ascii_of_nat (48 + n) else ascii_of_nat (87 + n).

(** One code unit inside a JSON string literal. *)
Definition quote_unit (c : ascii) : string :=
  let n := nat_of_ascii c in
  let esc (x : string) := String reverse_solidus x in
  if (n =? 8)%nat then esc "b"
  else if (n =? 9)%nat then esc "t"
  else if (n =? 10)%nat then esc "n"
  else if (n =? 12)%nat then esc "f"
  else if (n =? 13)%nat then esc "r"
  else if (n =? 34)%nat then esc (String quotation_mark "")
  else if (n =? 92)%nat then esc (String reverse_solidus "")
  else if (n <? 32)%nat
       then esc ("u00" ++ String (hex_digit (n / 16))
                            (String (hex_digit (n mod 16)) ""))
  else String c "".

Fixpoint quote_units (s : string) : string :=
  match s with
  | EmptyString => EmptyString
  | String c s' => quote_unit c ++ quote_units s'
  end.

(** [QuoteJSONString]. *)
Definition quote (s : string) : string :=
  String quotation_mark (quote_units s ++ String quotation_mark "").

(** The text of an array or object from the texts of its members. *)
Definition wrap (opening closing gap stepback indent : string)
  (partial : list string) : string :=
  match partial with
  | [] => opening ++ closing
  | _ =>
      if String.eqb gap ""
      then opening ++ String.concat "," partial ++ closing
      else opening ++ line_feed ++ indent
           ++ String.concat ("," ++ line_feed ++ indent) partial
           ++ line_feed ++ stepback ++ closing
  end.

(** [SerializeJSONProperty] with the current indentation. *)
Fixpoint serialize (gap indent : string) (v : Value) {struct v} : string :=
  match v with
  | Null => "null"
  | Bool b => Boolean_toString b
  | Num None => "null"
  | Num n => Number_toString n
  | Str s => quote s
  | Arr items =>
      let inner := indent ++ gap in
      wrap "[" "]" gap indent inner
        ((fix members (l : list Value) : list string :=
            match l with
            | [] => []
            | x :: l' => serialize gap inner x :: members l'
            end) items)
  | Obj properties =>
      let inner := indent ++ gap in
      wrap "{" "}" gap indent inner
        ((fix members (l : list (string * option Value)) : list string :=
            match l with
            | [] => []
            | (k, Some x) :: l' =>
                (quote k ++ ":" ++ (if String.eqb gap "" then "" else " ")
                   ++ serialize gap inner x) :: members l'
            | (_, None) :: l' => members l'
            end) properties)
  end.

Fixpoint spaces (n : nat) : string :=
  match n with
  | O => ""
  | S n' => String " " (spaces n')
  end.

(** [JSON.stringify(v, null, space)]; [JSON.stringify(v)] is [space = 0]. *)
Definition stringify (v : Value) (space : nat) : string :=
  serialize (spaces (Nat.min space 10)) "" v.

End Json.

(* ===================================================================== *)
(** * The upstream API as the functions see it *)
(* ===================================================================== *)

Module Github.

(** One entry of [response.data.errors]. *)
Record GraphQLError : Type := {
  type : option string;
  error_message : option string
}.

(** [response.data.data.rateLimit]; [resetAt] is a timestamp text. *)
Record RateLimit : Type := {
  remaining : option Z;
  resetAt : option string
}.

Record QueryData : Type := {
  rateLimit : option RateLimit
}.

(** [response.data]: [None] stands for an absent or [null] member. *)
Record Payload : Type := {
  errors : option (list GraphQLError);
  data : option QueryData
}.

Record AxiosResponse : Type := {
  response_data : Payload
}.

Definition AxiosRequestHeaders : Type := JsObject string.

(** What [request] of the utilities is called with. *)
Record RequestData : Type := {
  query : string;
  variables : AxiosRequestHeaders
}.

(** [(variables, token) => Promise<AxiosResponse>] over a world [W]. *)
Definition Fetcher (W : Type) : Type :=
  AxiosRequestHeaders -> option string -> M Error W AxiosResponse.

(** [process.env]. *)
Definition Env : Type := JsObject string.

(** What a Netlify function returns. *)
Record HandlerResponse : Type := {
  statusCode : Z;
  headers : JsObject string;
  body : string
}.

(** A value spliced into a template literal. *)
Definition template (v : option string) : string :=
  match v with
  | Some s => s
  | None => "undefined"
  end.

(** [v === s] for a value that is a string or [undefined]. *)
Definition strict_eq (v : option string) (s : string) : bool :=
  match v with
  | Some x => String.eqb x s
  | None => false
  end.

End Github.

Import Github.

(* ===================================================================== *)
(** * Ordering of keys: [Array.prototype.sort()] *)
(* ===================================================================== *)

Module StringOrder <: TotalLeBool.
Definition t : Type := string.
Definition leb : t -> t -> bool := String.leb.
Definition leb_total : forall x y, leb x y = true \/ leb y x = true :=
  String.leb_total.
End StringOrder.

Module StringSort := Sort StringOrder.

(* ===================================================================== *)
(** * [netlify/functions/status/pat-info.js] *)
(* ===================================================================== *)

Module PatInfo.

Definition RATE_LIMIT_SECONDS : Z := 60 * 5.

(** ** The pattern [/PAT_\d*$/] *)

Definition is_digit (c : ascii) : bool :=
  let n := nat_of_ascii c in ((48 <=? n) && (n <=? 57))%nat.

Fixpoint all_digits (s : string) : bool :=
  match s with
  | EmptyString => true
  | String c s' => is_digit c && all_digits s'
  end.

(** The pattern matched at the start of [s]. *)
Definition match_here (s : string) : bool :=
  match s with
  | String "P" (String "A" (String "T" (String "_" rest))) => all_digits rest
  | _ => false
  end.

(** [/PAT_\d*$/.exec(key)] is not [null]: a match at some offset. *)
Fixpoint exec_PAT (key : string) : bool :=
  match_here key ||
  match key with
  | EmptyString => false
  | String _ key' => exec_PAT key'
  end.

Definition getAllPATs (env : Env) : list string :=
  filter exec_PAT (keys env).

(** ** Status details *)

(** The objects stored in [details]. *)
Inductive Detail : Type :=
| Error_detail (error_type error_message : option string)
| Exhausted_detail (resetIn : string)
| Valid_detail (remaining : option Z)
| Expired_detail
| Suspended_detail.

(** [detail.status]. *)
Definition status (d : Detail) : string :=
  match d with
  | Error_detail _ _ => "error"
  | Exhausted_detail _ => "exhausted"
  | Valid_detail _ => "valid"
  | Expired_detail => "expired"
  | Suspended_detail => "suspended"
  end.

(** [detail.remaining]; [None] where the object has no such member or it
    is [undefined]. *)
Definition detail_remaining (d : Detail) : option Z :=
  match d with
  | Exhausted_detail _ => Some 0%Z
  | Valid_detail r => r
  | _ => None
  end.

Record PATInfo : Type := {
  validPATs : list string;
  expiredPATs : list string;
  exhaustedPATs : list string;
  suspendedPATs : list string;
  errorPATs : list string;
  details : JsObject Detail
}.

(** [details[pat].status === status].  It is asked of the keys of
    [details] only, which always have a value: the [None] case is idle. *)
Definition has_status (details : JsObject Detail) (st pat : string) : bool :=
  match get pat details with
  | Some d => String.eqb (status d) st
  | None => false
  end.

(** [Object.keys(details).filter((pat) => details[pat].status === status)]. *)
Definition filterPATsByStatus (details : JsObject Detail) (st : string)
  : list string :=
  filter (has_status details st) (keys details).

(** [Object.keys(details).sort().reduce(...)]: a fresh object filled in
    the sorted order of the keys. *)
Definition sortedDetails (details : JsObject Detail) : JsObject Detail :=
  fold_left
    (fun obj key =>
       match get key details with
       | Some d => set key d obj
       | None => obj
       end)
    (StringSort.sort (keys details))
    [].

(** ** The probe *)

Section Prober.

(** The world outside: the network and the clock. *)
Variable W : Type.
(** [new Date().getTime()]. *)
Variable Date_now : W -> Z.
(** The time value of [new Date(text)]. *)
Variable Date_parse : string -> Date.
(** [dateDiff] of the utilities. *)
Variable dateDiff : Date -> Date -> Number.

(** One call of the fetcher, as observed from outside: for which
    credential, with which token, how it ended and the world it left. *)
Record Attempt : Type := {
  attempt_pat : string;
  attempt_token : option string;
  attempt_result : Completion Error AxiosResponse;
  attempt_after : W
}.

(** A run: the world and the fetcher calls made so far. *)
Record Run : Type := {
  world : W;
  attempts : list Attempt
}.

(** A run that has made no call yet. *)
Definition start (w : W) : Run := {| world := w; attempts := [] |}.

(** [await fetcher(variables, process.env[pat])]. *)
Definition await_fetcher (fetcher : Fetcher W) (pat : string)
  (variables : AxiosRequestHeaders) (token : option string)
  : M Error Run AxiosResponse :=
  fun s =>
    let (r, w') := fetcher variables token (world s) in
    (r, {| world := w';
           attempts := (attempts s ++
             [{| attempt_pat := pat; attempt_token := token;
                 attempt_result := r; attempt_after := w' |}])%list |}).

(** [new Date()]. *)
Definition new_Date_now : M Error Run Date :=
  fun s => (Normal (Some (Date_now (world s))), s).

(** [new Date(value)] for a value that is a text or [undefined]. *)
Definition new_Date (value : option string) : Date :=
  match value with
  | Some text => Date_parse text
  | None => None
  end.

(** [response.data.data?.rateLimit]. *)
Definition rateLimit_of (response : AxiosResponse) : option RateLimit :=
  match data (response_data response) with
  | Some d => rateLimit d
  | None => None
  end.

(** [response.data?.data?.rateLimit?.resetAt]. *)
Definition resetAt_of (response : AxiosResponse) : option string :=
  match rateLimit_of response with
  | Some rl => resetAt rl
  | None => None
  end.

(** [const hasErrors = Boolean(errors)]: an array, even an empty one, is
    truthy. *)
Definition hasErrors (response : AxiosResponse) : bool :=
  match errors (response_data response) with
  | Some _ => true
  | None => false
  end.

(** [const errorType = errors?.[0]?.type]. *)
Definition errorType (response : AxiosResponse) : option string :=
  match errors (response_data response) with
  | Some (e :: _) => type e
  | _ => None
  end.

(** [response.data.data?.rateLimit?.remaining === 0]. *)
Definition remaining_is_zero (response : AxiosResponse) : bool :=
  match rateLimit_of response with
  | Some rl => match remaining rl with
               | Some n => Z.eqb n 0
               | None => false
               end
  | None => false
  end.

(** [const isRateLimited = ...]. *)
Definition isRateLimited (response : AxiosResponse) : bool :=
  (hasErrors response && strict_eq (errorType response) "RATE_LIMITED")
  || remaining_is_zero response.

(** [err.response?.data?.message?.toLowerCase()]. *)
Definition errorMessage (err : Error) : option string :=
  option_map toLowerCase (response_data_message err).

(** An error that the [catch] block of the loop does not know. *)
Definition unrecognized (err : Error) : Prop :=
  strict_eq (errorMessage err) "bad credentials" = false /\
  strict_eq (errorMessage err) "sorry. your account was suspended." = false.

(** The body of the loop over the credentials: one pass of
    [try { ... } catch (err) { ... }] for the credential [pat]. *)
Definition probe (fetcher : Fetcher W) (variables : AxiosRequestHeaders)
  (env : Env) (pat : string) (details : JsObject Detail)
  : M Error Run (JsObject Detail) :=
  try_catch
    (response <- await_fetcher fetcher pat variables (get pat env) ;;
     let errs := errors (response_data response) in
     let hasErrors := hasErrors response in
     let errorType := errorType response in
     let isRateLimited := isRateLimited response in
     if hasErrors && negb (strict_eq errorType "RATE_LIMITED") then
       match errs with
       | Some (e :: _) =>
           ret (set pat (Error_detail (type e) (error_message e)) details)
       | _ =>
           throw (TypeError
             "Cannot read properties of undefined (reading 'type')")
       end
     else if isRateLimited then
       date1 <- new_Date_now ;;
       let date2 := new_Date (resetAt_of response) in
       ret (set pat
              (Exhausted_detail
                 (Number_toString (dateDiff date2 date1) ++ " minutes"))
              details)
     else
       match data (response_data response) with
       | Some d =>
           match rateLimit d with
           | Some rl => ret (set pat (Valid_detail (remaining rl)) details)
           | None =>
               throw (TypeError
                 "Cannot read properties of undefined (reading 'remaining')")
           end
       | None =>
           throw (TypeError
             "Cannot read properties of undefined (reading 'rateLimit')")
       end)
    (fun err =>
       let errorMessage := errorMessage err in
       if strict_eq errorMessage "bad credentials" then
         ret (set pat Expired_detail details)
       else if strict_eq errorMessage "sorry. your account was suspended."
       then ret (set pat Suspended_detail details)
       else throw err).

Definition getPATInfo (fetcher : Fetcher W)
  (variables : AxiosRequestHeaders) (env : Env) : M Error Run PATInfo :=
  let PATs := getAllPATs env in
  details <- for_of PATs (probe fetcher variables env) [] ;;
  ret {| validPATs := filterPATsByStatus details "valid";
         expiredPATs := filterPATsByStatus details "expired";
         exhaustedPATs := filterPATsByStatus details "exhausted";
         suspendedPATs := filterPATsByStatus details "suspended";
         errorPATs := filterPATsByStatus details "error";
         details := sortedDetails details |}.

(** ** Responses and errors that a pass can classify

    A response is classified unless the pass reads a member of a missing
    object: the first error of an empty [errors] array, or the rate limit
    of a payload without one that is not rate-limited. *)

Definition classifiable_response (response : AxiosResponse) : bool :=
  if hasErrors response
     && negb (strict_eq (errorType response) "RATE_LIMITED")
  then match errors (response_data response) with
       | Some (_ :: _) => true
       | _ => false
       end
  else if isRateLimited response then true
  else match rateLimit_of response with
       | Some _ => true
       | None => false
       end.

Definition classifiable (r : Completion Error AxiosResponse) : Prop :=
  match r with
  | Normal response => classifiable_response response = true
  | Throw err => ~ unrecognized err
  end.

(** ** What one pass records

    The outcome of a pass as a relation between the observed call and the
    detail stored for its credential; [probe_records] below shows that the
    loop body and this relation agree. *)

Inductive Recorded (a : Attempt) : Detail -> Prop :=
| Recorded_expired (err : Error) :
    attempt_result a = Throw err ->
    strict_eq (errorMessage err) "bad credentials" = true ->
    Recorded a Expired_detail
| Recorded_suspended (err : Error) :
    attempt_result a = Throw err ->
    strict_eq (errorMessage err) "bad credentials" = false ->
    strict_eq (errorMessage err) "sorry. your account was suspended." = true ->
    Recorded a Suspended_detail
| Recorded_error (response : AxiosResponse) (e : GraphQLError)
    (rest : list GraphQLError) :
    attempt_result a = Normal response ->
    errors (response_data response) = Some (e :: rest) ->
    strict_eq (type e) "RATE_LIMITED" = false ->
    Recorded a (Error_detail (type e) (error_message e))
| Recorded_exhausted (response : AxiosResponse) :
    attempt_result a = Normal response ->
    hasErrors response
      && negb (strict_eq (errorType response) "RATE_LIMITED") = false ->
    isRateLimited response = true ->
    Recorded a
      (Exhausted_detail
         (Number_toString
            (dateDiff (new_Date (resetAt_of response))
               (Some (Date_now (attempt_after a))))
          ++ " minutes"))
| Recorded_valid (response : AxiosResponse) (rl : RateLimit) :
    attempt_result a = Normal response ->
    hasErrors response
      && negb (strict_eq (errorType response) "RATE_LIMITED") = false ->
    isRateLimited response = false ->
    rateLimit_of response = Some rl ->
    Recorded a (Valid_detail (remaining rl)).

(** ** The calls of the fetcher

    What calling the fetcher for each credential of [pats] in turn gives,
    from the world [w] on: every entry is [fetcher(variables,
    process.env[pat])] itself, applied to the world that the call before
    it left, with the result and the world that this application gives.
    It is written with the fetcher alone and knows nothing of the loop. *)
Fixpoint fetcher_trace (fetcher : Fetcher W)
  (variables : AxiosRequestHeaders) (env : Env) (pats : list string) (w : W)
  : list Attempt :=
  match pats with
  | [] => []
  | pat :: pats' =>
      {| attempt_pat := pat;
         attempt_token := get pat env;
         attempt_result := fst (fetcher variables (get pat env) w);
         attempt_after := snd (fetcher variables (get pat env) w) |}
      :: fetcher_trace fetcher variables env pats'
           (snd (fetcher variables (get pat env) w))
  end.

(** The world that a series of calls leaves behind. *)
Definition world_after (w : W) (calls : list Attempt) : W :=
  fold_left (fun _ a => attempt_after a) calls w.

End Prober.

(** ** The function *)

Definition Detail_toJson (d : Detail) : Json.Value :=
  match d with
  | Error_detail t m =>
      Json.Obj
        [("status", Some (Json.Str "error"));
         ("error",
          Some (Json.Obj [("type", option_map Json.Str t);
                          ("message", option_map Json.Str m)]))]
  | Exhausted_detail r =>
      Json.Obj
        [("status", Some (Json.Str "exhausted"));
         ("remaining", Some (Json.Num (Some 0%Z)));
         ("resetIn", Some (Json.Str r))]
  | Valid_detail r =>
      Json.Obj
        [("status", Some (Json.Str "valid"));
         ("remaining", option_map (fun n => Json.Num (Some n)) r)]
  | Expired_detail => Json.Obj [("status", Some (Json.Str "expired"))]
  | Suspended_detail => Json.Obj [("status", Some (Json.Str "suspended"))]
  end.

Definition PATInfo_toJson (info : PATInfo) : Json.Value :=
  let names (l : list string) := Some (Json.Arr (map Json.Str l)) in
  Json.Obj
    [("validPATs", names (validPATs info));
     ("expiredPATs", names (expiredPATs info));
     ("exhaustedPATs", names (exhaustedPATs info));
     ("suspendedPATs", names (suspendedPATs info));
     ("errorPATs", names (errorPATs info));
     ("details",
      Some (Json.Obj
              (map (fun kv => (fst kv, Some (Detail_toJson (snd kv))))
                 (details info))))].

Section Function.

Variable W : Type.
Variable Date_now : W -> Z.
Variable Date_parse : string -> Date.
Variable dateDiff : Date -> Date -> Number.
(** [request] of the utilities: one call over the network. *)
Variable request :
  RequestData -> JsObject string -> M Error W AxiosResponse.

Definition uptimeFetcher : Fetcher W :=
  fun variables token =>
    request
      {| query := "
        query {
          rateLimit {
            remaining
            resetAt
          },
        }";
         variables := variables |}
      [("Authorization", "bearer " ++ template token)].

(** [exports.handler]; neither [event] nor [context] is read. *)
Definition handler (env : Env) : M Error (Run W) HandlerResponse :=
  let statusCode := 200%Z in
  let headers := [("Content-Type", "application/json")] in
  try_catch
    (PATsInfo <- getPATInfo Date_now Date_parse dateDiff uptimeFetcher [] env ;;
     let headers :=
       set "Cache-Control"
         ("max-age=0, s-maxage=" ++ Number_toString (Some RATE_LIMIT_SECONDS))
         headers in
     let body := Json.stringify (PATInfo_toJson PATsInfo) 2 in
     ret {| statusCode := statusCode; headers := headers; body := body |})
    (fun err =>
       ret {| statusCode := 500%Z;
              headers := [("Content-Type", "text/plain");
                          ("Cache-Control", "no-store")];
              body := "Something went wrong: " ++ message err |}).

End Function.

(** Modelled from the spec: [dateDiff] of [src/common/utils.js], a file
    that is not among the sources.  The specification asks for the minutes
    until reset, "computed from reset timestamp minus current time", as
    "truncated integer minutes".  An invalid date makes the result [NaN]. *)
Definition dateDiff_minutes (d1 d2 : Date) : Number :=
  match d1, d2 with
  | Some t1, Some t2 => Some (Z.quot (t1 - t2) (1000 * 60))
  | _, _ => None
  end.

End PatInfo.

(* ===================================================================== *)
(** * The uptime function *)
(* ===================================================================== *)

Module Uptime.

Definition RATE_LIMIT_SECONDS : Z := 60 * 5.

Record ShieldsResponse : Type := {
  schemaVersion : Z;
  label : string;
  badge_message : string;
  color : string;
  isError : bool
}.

Definition shieldsUptimeBadge (up : bool) : ShieldsResponse :=
  let schemaVersion := 1%Z in
  let isError := false in
  let label := "Public Instance" in
  let message := if up then "up" else "down" in
  let color := if up then "brightgreen" else "red" in
  {| schemaVersion := schemaVersion;
     label := label;
     badge_message := message;
     color := color;
     isError := isError |}.

Definition ShieldsResponse_toJson (r : ShieldsResponse) : Json.Value :=
  Json.Obj
    [("schemaVersion", Some (Json.Num (Some (schemaVersion r))));
     ("label", Some (Json.Str (label r)));
     ("message", Some (Json.Str (badge_message r)));
     ("color", Some (Json.Str (color r)));
     ("isError", Some (Json.Bool (isError r)))].

(** The part of the Netlify event that is read. *)
Record Event : Type := {
  queryStringParameters : JsObject string
}.

Section Function.

(** The state the retryer and the network live in. *)
Variable S : Type.
Variable request :
  RequestData -> JsObject string -> M Error S AxiosResponse.
(** [retryer] of [src/common/retryer]: any computation at all. *)
Variable retryer :
  Fetcher S -> AxiosRequestHeaders -> M Error S AxiosResponse.

Definition uptimeFetcher : Fetcher S :=
  fun variables token =>
    request
      {| query := "
        query {
          rateLimit {
              remaining
          }
        }
        ";
         variables := variables |}
      [("Authorization", "bearer " ++ template token)].

(** [type ? type.toLowerCase() : "boolean"] for
    [type = event.queryStringParameters.type]: an absent or empty
    parameter selects the plain answer. *)
Definition requested_type (event : Event) : string :=
  match get "type" (queryStringParameters event) with
  | Some (String c t) => toLowerCase (String c t)
  | _ => "boolean"
  end.

(** [exports.handler]; the two [console.error] calls only write to the
    log of the function and are left out. *)
Definition handler (event : Event) : M Error S HandlerResponse :=
  let type := requested_type event in
  let statusCode := 200%Z in
  let headers := [("Content-Type", "application/json")] in
  try_catch
    (PATsValid <-
       try_catch
         (_ <- retryer uptimeFetcher [] ;; ret true)
         (fun err => ret false) ;;
     let headers :=
       if PATsValid : bool then
         set "Cache-Control"
           ("max-age=0, s-maxage=" ++ Number_toString (Some RATE_LIMIT_SECONDS))
           headers
       else set "Cache-Control" "no-store" headers in
     if String.eqb type "shields" then
       ret {| statusCode := statusCode;
              headers := set "Content-Type" "application/json" headers;
              body := Json.stringify
                        (ShieldsResponse_toJson (shieldsUptimeBadge PATsValid))
                        0 |}
     else if String.eqb type "json" then
       ret {| statusCode := statusCode;
              headers := headers;
              body := Json.stringify
                        (Json.Obj [("up", Some (Json.Bool PATsValid))]) 0 |}
     else
       ret {| statusCode := statusCode;
              headers := set "Content-Type" "text/plain" headers;
              body := Boolean_toString PATsValid |})
    (fun err =>
       ret {| statusCode := 500%Z;
              headers := [("Content-Type", "text/plain");
                          ("Cache-Control", "no-store")];
              body := "Something went wrong: " ++ message err |}).

End Function.

End Uptime.

(* ===================================================================== *)
(** * The Retryer *)
(* ===================================================================== *)

Module Retryer.

(** Modelled from the spec: the last-known status of a credential.  The
    file [src/common/retryer.js] is not among the sources; this module
    follows the data model and the sections on the Classifier and the
    Retryer of the specification. *)
Inductive Status : Type :=
| unknown
| valid (quota : option Z)
| rate_limited (reset : option Z)
| expired
| suspended
| error (error_type error_message : string).

(** Modelled from the spec: a credential of the pool (the retryer's file is
    missing): identifier, secret value, last-known status. *)
Record Credential : Type := {
  identifier : string;
  secret : string;
  last_status : Status
}.

(** Modelled from the spec: the categories of a failed attempt (the
    retryer's file is missing). *)
Inductive Category : Type :=
| Rate_limited
| Expired
| Suspended
| Transient_error.

(** Modelled from the spec: the application-level part of a response (the
    retryer's file is missing): its errors, the quota field and the reset
    time of the rate-limit metadata. *)
Record AppError : Type := {
  denotes_rate_limiting : bool;
  app_error_type : string;
  app_error_message : string
}.

(** Modelled from the spec: the payload of a response, as far as the
    Classifier inspects it (the retryer's file is missing). *)
Record Payload : Type := {
  app_errors : list AppError;
  quota_remaining : option Z;
  reset_time : option Z
}.

(** Modelled from the spec: the ways the transport call itself fails (the
    retryer's file is missing). *)
Inductive TransportFailure : Type :=
| Authentication_rejected
| Account_suspended
| Other_failure (what : string).

(** Modelled from the spec: a raw result (the retryer's file is missing):
    a transport response with its payload, or a transport failure. *)
Inductive RawResult : Type :=
| Response (p : Payload)
| Failed (f : TransportFailure).

(** Modelled from the spec: the outcome of one attempt (the retryer's file
    is missing): success with the payload, or a failure with its category
    and the status it leaves on the credential. *)
Inductive Outcome : Type :=
| success (p : Payload)
| failure (c : Category) (detail : Status).

(** Modelled from the spec: what the Classifier answers (the retryer's
    file is missing): an outcome, or a failure shape that it cannot
    categorise. *)
Inductive Classified : Type :=
| categorised (o : Outcome)
| unrecognized (f : TransportFailure).

(** Modelled from the spec: the rules of the Classifier, in their order of
    priority (the retryer's file is missing).  A transport failure without
    one of the two known signals has no category. *)
Definition classify (r : RawResult) : Classified :=
  match r with
  | Failed Authentication_rejected => categorised (failure Expired expired)
  | Failed Account_suspended => categorised (failure Suspended suspended)
  | Failed (Other_failure what) => unrecognized (Other_failure what)
  | Response p =>
      if existsb denotes_rate_limiting (app_errors p)
      then categorised (failure Rate_limited (rate_limited (reset_time p)))
      else if match quota_remaining p with
              | Some n => Z.eqb n 0
              | None => false
              end
      then categorised (failure Rate_limited (rate_limited (reset_time p)))
      else match app_errors p with
           | e :: _ =>
               categorised
                 (failure Transient_error
                    (error (app_error_type e) (app_error_message e)))
           | [] => categorised (success p)
           end
  end.

(** Modelled from the spec: how a logical call fails (the retryer's file is
    missing). *)
Inductive Failure : Type :=
| PoolExhausted (last : option (Category * Status))
| UnrecognizedFailure (f : TransportFailure).

(** Modelled from the spec: who may be attempted (the retryer's file is
    missing): every member whose status is neither expired nor suspended. *)
Definition is_eligible (c : Credential) : bool :=
  match last_status c with
  | expired | suspended => false
  | _ => true
  end.

(** Modelled from the spec: the order of the attempts (the retryer's file
    is missing): the eligible credentials, starting from the rotation
    cursor.  How the cursor moves from one call to the next is not fixed by
    the specification; a call is modelled for any position of the cursor. *)
Definition rotation {A : Type} (cursor : nat) (l : list A) : list A :=
  let k := (cursor mod (List.length l))%nat in
  (skipn k l ++ firstn k l)%list.

(** Modelled from the spec: the eligible credentials in the order of
    their attempts (the retryer's file is missing). *)
Definition eligible (cursor : nat) (pool : list Credential)
  : list Credential :=
  rotation cursor (filter is_eligible pool).

Section Execute.

Variable W : Type.
Variable Variables : Type.

(** Modelled from the spec: the operation (the retryer's file is missing):
    from the variables and the secret of a credential to a raw result. *)
Definition Operation : Type := Variables -> string -> W -> RawResult * W.

(** Modelled from the spec: the state of a logical call (the retryer's
    file is missing): the pool with its statuses, the world, and the
    identifiers of the credentials attempted so far, in order. *)
Record State : Type := {
  pool : list Credential;
  world : W;
  attempted : list string
}.

(** Modelled from the spec: one attempt of the operation with the secret
    of a credential (the retryer's file is missing). *)
Definition run_operation (operation : Operation) (variables : Variables)
  (c : Credential) : M Failure State RawResult :=
  fun s =>
    let (r, w') := operation variables (secret c) (world s) in
    (Normal r,
     {| pool := pool s; world := w';
        attempted := (attempted s ++ [identifier c])%list |}).

(** Modelled from the spec: the status of the attempted credential is
    overwritten (the retryer's file is missing); identifiers are fixed. *)
Definition update_status (c : Credential) (st : Status)
  : M Failure State unit :=
  fun s =>
    (Normal tt,
     {| pool :=
          map (fun c' =>
                 if String.eqb (identifier c') (identifier c)
                 then {| identifier := identifier c';
                         secret := secret c';
                         last_status := st |}
                 else c')
              (pool s);
        world := world s;
        attempted := attempted s |}).

(** Modelled from the spec: steps 3 and 4 of the Retryer (the retryer's
    file is missing): the credentials are attempted in turn; a success
    returns at once, any categorised failure moves on to the next one, and
    the end of the list is [PoolExhausted] with the last failure seen. *)
Fixpoint attempt_in_turn (operation : Operation) (variables : Variables)
  (candidates : list Credential) (last : option (Category * Status))
  : M Failure State Payload :=
  match candidates with
  | [] => throw (PoolExhausted last)
  | c :: rest =>
      raw <- run_operation operation variables c ;;
      match classify raw with
      | categorised (success p) =>
          _ <- update_status c (valid (quota_remaining p)) ;;
          ret p
      | categorised (failure category detail) =>
          _ <- update_status c detail ;;
          attempt_in_turn operation variables rest (Some (category, detail))
      | unrecognized f => throw (UnrecognizedFailure f)
      end
  end.

(** Modelled from the spec: [Retryer.execute] (the retryer's file is
    missing). *)
Definition execute (cursor : nat) (operation : Operation)
  (variables : Variables) : M Failure State Payload :=
  fun s => attempt_in_turn operation variables (eligible cursor (pool s)) None s.

End Execute.

End Retryer.

(* ===================================================================== *)
(** * Sample runs *)
(* ===================================================================== *)

Module Samples.
Import PatInfo.

(** A response that reports [n] remaining calls. *)
Definition quota (n : Z) : AxiosResponse :=
  {| response_data :=
       {| errors := None;
          data := Some {| rateLimit :=
                            Some {| remaining := Some n;
                                    resetAt := Some "2024-01-01T00:30:00Z" |}
                       |} |} |}.

(** A response with a single error of the given type and no data. *)
Definition failing (kind : string) : AxiosResponse :=
  {| response_data :=
       {| errors := Some [{| type := Some kind;
                             error_message := Some "failed" |}];
          data := None |} |}.

(** A response with an error that is not about rate limiting next to
    data that reports no remaining calls. *)
Definition not_found_and_no_quota : AxiosResponse :=
  {| response_data :=
       {| errors := Some [{| type := Some "NOT_FOUND";
                             error_message := Some "failed" |}];
          data := data (response_data (quota 0)) |} |}.

Definition rejection (status text : string) : Error :=
  {| message := "Request failed with status code " ++ status;
     response_data_message := Some text |}.

Definition network_error : Error :=
  {| message := "getaddrinfo ENOTFOUND api.github.com";
     response_data_message := None |}.

(** A network that answers by the authorization header alone. *)
Definition wire : RequestData -> JsObject string -> M Error unit AxiosResponse :=
  fun _ headers w =>
    match get "Authorization" headers with
    | Some "bearer good" => (Normal (quota 4999), w)
    | Some "bearer spent" => (Normal (quota 0), w)
    | Some "bearer limited" => (Normal (failing "RATE_LIMITED"), w)
    | Some "bearer odd" => (Normal not_found_and_no_quota, w)
    | Some "bearer old" => (Throw (rejection "401" "Bad credentials"), w)
    | Some "bearer banned" =>
        (Throw (rejection "403" "Sorry. Your account was suspended."), w)
    | _ => (Throw network_error, w)
    end.

Definition network : Fetcher unit := uptimeFetcher wire.

(** The clock stands at twenty minutes past; every timestamp reads as
    thirty minutes and 999 milliseconds past. *)
Definition clock : unit -> Z := fun _ => 1200000%Z.
Definition parse : string -> Date := fun _ => Some 1800999%Z.

Definition env_mixed : Env :=
  [("PAT_2", "good"); ("HOME", "/root"); ("PAT_1", "old");
   ("PAT_3", "limited"); ("PAT_10", "spent"); ("PAT_4", "banned")].

Definition env_unordered : Env := [("PAT_2", "good"); ("PAT_1", "good")].

Definition env_odd : Env := [("PAT_1", "odd")].

Definition env_offline : Env := [("PAT_1", "good"); ("PAT_2", "unplugged")].

Definition run (env : Env) : Completion Error PATInfo * Run unit :=
  getPATInfo clock parse dateDiff_minutes network [] env (start tt).

(** The report of a completed run; the empty report otherwise. *)
Definition report (env : Env) : PATInfo :=
  match fst (run env) with
  | Normal info => info
  | Throw _ =>
      {| validPATs := []; expiredPATs := []; exhaustedPATs := [];
         suspendedPATs := []; errorPATs := []; details := [] |}
  end.

(** The calls of a completed run, one per credential. *)
Definition bad_credentials_call : Attempt unit :=
  {| attempt_pat := "PAT_1"; attempt_token := Some "old";
     attempt_result := Throw (rejection "401" "Bad credentials");
     attempt_after := tt |}.

Definition suspended_call : Attempt unit :=
  {| attempt_pat := "PAT_4"; attempt_token := Some "banned";
     attempt_result :=
       Throw (rejection "403" "Sorry. Your account was suspended.");
     attempt_after := tt |}.

Definition no_quota_call : Attempt unit :=
  {| attempt_pat := "PAT_10"; attempt_token := Some "spent";
     attempt_result := Normal (quota 0);
     attempt_after := tt |}.

Definition offline_call : Attempt unit :=
  {| attempt_pat := "PAT_2"; attempt_token := Some "unplugged";
     attempt_result := Throw network_error;
     attempt_after := tt |}.

(** A retryer that finds no working credential. *)
Definition no_tokens : Error :=
  {| message := "No GitHub API tokens found";
     response_data_message := None |}.

Definition failing_retryer
  : Fetcher unit -> AxiosRequestHeaders -> M Error unit AxiosResponse :=
  fun _ _ => throw no_tokens.

Definition plain_event : Uptime.Event :=
  {| Uptime.queryStringParameters := [] |}.

Definition shields_event : Uptime.Event :=
  {| Uptime.queryStringParameters := [("type", "Shields")] |}.

(** A pool of three, the second one expired, and an operation that
    always finds the quota used up. *)
Definition pool_of_three : list Retryer.Credential :=
  [{| Retryer.identifier := "PAT_1"; Retryer.secret := "one";
      Retryer.last_status := Retryer.unknown |};
   {| Retryer.identifier := "PAT_2"; Retryer.secret := "two";
      Retryer.last_status := Retryer.expired |};
   {| Retryer.identifier := "PAT_3"; Retryer.secret := "three";
      Retryer.last_status := Retryer.valid (Some 12%Z) |}].

Definition spent_operation : Retryer.Operation unit unit :=
  fun _ _ w =>
    (Retryer.Response
       {| Retryer.app_errors := [];
          Retryer.quota_remaining := Some 0%Z;
          Retryer.reset_time := Some 1800000%Z |}, w).

Definition first_call : Retryer.State unit :=
  {| Retryer.pool := pool_of_three;
     Retryer.world := tt;
     Retryer.attempted := [] |}.

Definition suspended_pool : Retryer.State unit :=
  {| Retryer.pool :=
       [{| Retryer.identifier := "PAT_1"; Retryer.secret := "one";
           Retryer.last_status := Retryer.suspended |};
        {| Retryer.identifier := "PAT_2"; Retryer.secret := "two";
           Retryer.last_status := Retryer.expired |}];
     Retryer.world := tt;
     Retryer.attempted := [] |}.

End Samples.

(* ===================================================================== *)
(** * How a pass of the probe ends *)
(* ===================================================================== *)

Module Outcome.
Import PatInfo.

(** How a pass ends, read off the call it made: it completes when the
    call ended in a classifiable way; otherwise it throws, the error of
    the call itself or a [TypeError] of its own. *)
Definition ends_as {A : Type} (r : Completion Error AxiosResponse)
  (c : Completion Error A) : Prop :=
  match c with
  | Normal _ => classifiable r
  | Throw e =>
      ~ classifiable r /\
      match r with
      | Throw err => e = err
      | Normal _ => response_data_message e = None
      end
  end.

End Outcome.

(* ===================================================================== *)
(** * The card functions: what they share *)
(* ===================================================================== *)

(** The five card functions answer with a rendered card.  Everything they
    import (the fetchers, the renderers, [renderError], [clampValue],
    [parseBoolean], [parseArray], [isLocaleAvailable], [blacklist] and
    [CONSTANTS]) lives in files that are not among the sources: each is a
    parameter of the function that uses it.  The fetchers are promises and
    the renderers may throw; the other helpers are taken as total
    functions.  Numbers are integers or [NaN], as in [Js.Number]; the
    texts made from them are those of JavaScript for integers below 2^53
    in absolute value. *)

Module Card.

(** A thrown value, as far as the [catch] blocks look into it:
    [err.message] and [err.secondaryMessage]. *)
Record Thrown : Type := {
  thrown_message : string;
  thrown_secondaryMessage : option string
}.

(** The part of the Netlify event that is read. *)
Record Event : Type := {
  queryStringParameters : JsObject string
}.

(** The options handed to [renderError]. *)
Record ErrorOptions : Type := {
  error_title_color : option string;
  error_text_color : option string;
  error_bg_color : option string;
  error_border_color : option string;
  error_theme : option string
}.

(** The members of [CONSTANTS] that the functions read. *)
Record Constants : Type := {
  CARD_CACHE_SECONDS : Z;
  PIN_CARD_CACHE_SECONDS : Z;
  TOP_LANGS_CACHE_SECONDS : Z;
  ERROR_CACHE_SECONDS : Z;
  SIX_HOURS : Z;
  TWELVE_HOURS : Z;
  ONE_DAY : Z;
  TWO_DAY : Z;
  SIX_DAY : Z;
  TEN_DAY : Z
}.

(** [{ title_color, text_color, bg_color, border_color, theme }] of the
    query, as handed to [renderError]. *)
Definition error_options (query : JsObject string) : ErrorOptions :=
  {| error_title_color := get "title_color" query;
     error_text_color := get "text_color" query;
     error_bg_color := get "bg_color" query;
     error_border_color := get "border_color" query;
     error_theme := get "theme" query |}.

(** [Boolean(v)] for a value that is a text or [undefined]. *)
Definition truthy (v : option string) : bool :=
  match v with
  | Some (String _ _) => true
  | _ => false
  end.

(** [locale ? locale.toLowerCase() : null]; [None] is [null]. *)
Definition lower_locale (locale : option string) : option string :=
  match locale with
  | Some (String c l) => Some (toLowerCase (String c l))
  | _ => None
  end.

(** [locale && !isLocaleAvailable(locale)]. *)
Definition unavailable (isLocaleAvailable : string -> bool)
  (locale : option string) : bool :=
  match locale with
  | Some (String c l) => negb (isLocaleAvailable (String c l))
  | _ => false
  end.

(** [blacklist.includes(username)] for a list of texts. *)
Definition includes (l : list string) (v : option string) : bool :=
  match v with
  | Some s => existsb (String.eqb s) l
  | None => false
  end.

(** ** [parseInt(text, 10)] *)

(** The white space that [parseInt] skips, among code units below 256. *)
Definition is_white_space (c : ascii) : bool :=
  let n := nat_of_ascii c in
  ((9 <=? n) && (n <=? 13) || (n =? 32) || (n =? 160))%nat.

Fixpoint trim_start (s : string) : string :=
  match s with
  | EmptyString => EmptyString
  | String c s' => if is_white_space c then trim_start s' else s
  end.

(** The value of the decimal digits that [s] starts with, after [acc]. *)
Fixpoint digits_value (acc : Z) (s : string) : Z :=
  match s with
  | EmptyString => acc
  | String c s' =>
      if PatInfo.is_digit c
      then digits_value (10 * acc + Z.of_nat (nat_of_ascii c - 48)) s'
      else acc
  end.

Definition unsigned (s : string) : Number :=
  match s with
  | String c _ => if PatInfo.is_digit c then Some (digits_value 0 s) else None
  | EmptyString => None
  end.

(** [parseInt(s, 10)]: white space, a sign, digits; [NaN] without a
    digit; whatever follows the digits is ignored. *)
Definition parseInt (s : string) : Number :=
  match trim_start s with
  | String "-" s' => option_map Z.opp (unsigned s')
  | String "+" s' => unsigned s'
  | s' => unsigned s'
  end.

(** [parseInt(v, 10)] for a value that is a text or [undefined]. *)
Definition parseInt_value (v : option string) : Number :=
  match v with
  | Some s => parseInt s
  | None => None
  end.

(** [parseInt(cache_seconds || fallback, 10)] for a numeric constant
    [fallback]. *)
Definition parseInt_or (cache_seconds : option string) (fallback : Z)
  : Number :=
  if truthy cache_seconds then parseInt_value cache_seconds
  else Some fallback.

(** [a || b] for numbers: [NaN] and zero are falsy. *)
Definition or_else (a b : Number) : Number :=
  match a with
  | None => b
  | Some n => if Z.eqb n 0 then b else a
  end.

(** [process.env.CACHE_SECONDS
       ? parseInt(process.env.CACHE_SECONDS, 10) || cacheSeconds
       : cacheSeconds]. *)
Definition environment_cache_seconds (env : Env) (cacheSeconds : Number)
  : Number :=
  if truthy (get "CACHE_SECONDS" env)
  then or_else (parseInt_value (get "CACHE_SECONDS" env)) cacheSeconds
  else cacheSeconds.

(** The text of [n / 2] in a template. *)
Definition half_toString (n : Number) : string :=
  match n with
  | None => "NaN"
  | Some z =>
      if Z.even z then Number_toString (Some (Z.quot z 2))
      else (if Z.ltb z 0 then "-" else "")
           ++ Number_toString (Some (Z.quot (Z.abs z) 2)) ++ ".5"
  end.

(** The [Cache-Control] of the [catch] blocks. *)
Definition error_cache_control (CONSTANTS : Constants) : string :=
  "max-age=" ++ half_toString (Some (ERROR_CACHE_SECONDS CONSTANTS))
  ++ ", s-maxage=" ++ Number_toString (Some (ERROR_CACHE_SECONDS CONSTANTS))
  ++ ", stale-while-revalidate="
  ++ Number_toString (Some (ONE_DAY CONSTANTS)).

(** The integers that a JavaScript number holds exactly: within them
    [parseInt] and the texts of numbers are as modelled here. *)
Definition safe (n : Number) : Prop :=
  match n with
  | Some z => (Z.abs z < 2 ^ 53)%Z
  | None => True
  end.

(** A renderer's result as a step of a promise. *)
Definition lift {S A : Type} (c : Completion Thrown A) : M Thrown S A :=
  fun s => (c, s).

End Card.

(* ===================================================================== *)
(** * The WakaTime card function *)
(* ===================================================================== *)

(** The second function of [netlify/functions/status/pat-info.js]. *)
Module Wakatime.
Import Card.

(** The options handed to [renderWakatimeCard]; [Flag] is what
    [parseBoolean] returns. *)
Record Options (Flag : Type) : Type := {
  custom_title : option string;
  hide_title : Flag;
  hide_border : Flag;
  hide : list string;
  line_height : option string;
  title_color : option string;
  icon_color : option string;
  text_color : option string;
  bg_color : option string;
  theme : option string;
  hide_progress : option string;
  border_radius : option string;
  border_color : option string;
  locale : option string;
  layout : option string;
  langs_count : option string;
  display_format : option string;
  disable_animations : Flag
}.

Section Function.

Variable S : Type.
Variable Stats : Type.
Variable Flag : Type.
Variable CONSTANTS : Constants.
Variable isLocaleAvailable : string -> bool.
Variable renderError : string -> option string -> ErrorOptions -> string.
Variable clampValue : Number -> Z -> Z -> Number.
Variable parseBoolean : option string -> Flag.
Variable parseArray : option string -> list string.
(** [fetchWakatimeStats({ username, api_domain })]. *)
Variable fetchWakatimeStats :
  option string -> option string -> M Thrown S Stats.
Variable renderWakatimeCard :
  Stats -> Options Flag -> Completion Thrown string.

(** [exports.handler]; [context] is not read.  The [catch] block writes
    its [Cache-Control] over the one the [try] block may have set: either
    way the headers end as the content type followed by it. *)
Definition handler (event : Event) (env : Env)
  : M Thrown S HandlerResponse :=
  let query := queryStringParameters event in
  let username := get "username" query in
  let title_color := get "title_color" query in
  let icon_color := get "icon_color" query in
  let hide_border := get "hide_border" query in
  let line_height := get "line_height" query in
  let text_color := get "text_color" query in
  let bg_color := get "bg_color" query in
  let theme := get "theme" query in
  let cache_seconds := get "cache_seconds" query in
  let hide_title := get "hide_title" query in
  let hide_progress := get "hide_progress" query in
  let custom_title := get "custom_title" query in
  let locale := get "locale" query in
  let layout := get "layout" query in
  let langs_count := get "langs_count" query in
  let hide := get "hide" query in
  let api_domain := get "api_domain" query in
  let border_radius := get "border_radius" query in
  let border_color := get "border_color" query in
  let display_format := get "display_format" query in
  let disable_animations := get "disable_animations" query in
  let colors := error_options query in
  let statusCode := 200%Z in
  let headers := [("Content-Type", "image/svg+xml")] in
  if unavailable isLocaleAvailable locale then
    ret {| statusCode := 400;
           headers := headers;
           body := renderError "Something went wrong"
                     (Some "Language not found") colors |}
  else
    try_catch
      (stats <- fetchWakatimeStats username api_domain ;;
       let cacheSeconds :=
         clampValue
           (parseInt_or cache_seconds (CARD_CACHE_SECONDS CONSTANTS))
           (SIX_HOURS CONSTANTS) (TWO_DAY CONSTANTS) in
       let cacheSeconds := environment_cache_seconds env cacheSeconds in
       let headers :=
         set "Cache-Control"
           ("max-age=" ++ half_toString cacheSeconds
            ++ ", s-maxage=" ++ Number_toString cacheSeconds
            ++ ", stale-while-revalidate="
            ++ Number_toString (Some (ONE_DAY CONSTANTS)))
           headers in
       body <- lift
         (renderWakatimeCard stats
            {| custom_title := custom_title;
               hide_title := parseBoolean hide_title;
               hide_border := parseBoolean hide_border;
               hide := parseArray hide;
               line_height := line_height;
               title_color := title_color;
               icon_color := icon_color;
               text_color := text_color;
               bg_color := bg_color;
               theme := theme;
               hide_progress := hide_progress;
               border_radius := border_radius;
               border_color := border_color;
               locale := lower_locale locale;
               layout := layout;
               langs_count := langs_count;
               display_format := display_format;
               disable_animations := parseBoolean disable_animations |}) ;;
       ret {| statusCode := statusCode; headers := headers; body := body |})
      (fun err =>
         ret {| statusCode := 500;
                headers :=
                  set "Cache-Control" (error_cache_control CONSTANTS) headers;
                body := renderError (thrown_message err)
                          (thrown_secondaryMessage err) colors |}).

End Function.

End Wakatime.

(* ===================================================================== *)
(** * The pinned repository card function *)
(* ===================================================================== *)

(** [netlify/functions/pin.js]. *)
Module Pin.
Import Card.

(** The options handed to [renderRepoCard]. *)
Record Options (Flag : Type) : Type := {
  hide_border : Flag;
  title_color : option string;
  icon_color : option string;
  text_color : option string;
  bg_color : option string;
  theme : option string;
  border_radius : option string;
  border_color : option string;
  show_owner : Flag;
  locale : option string;
  description_lines_count : option string
}.

Section Function.

Variable S : Type.
Variable Repo : Type.
Variable Flag : Type.
Variable CONSTANTS : Constants.
Variable blacklist : list string.
Variable isLocaleAvailable : string -> bool.
Variable renderError : string -> option string -> ErrorOptions -> string.
Variable clampValue : Number -> Z -> Z -> Number.
Variable parseBoolean : option string -> Flag.
Variable fetchRepo : option string -> option string -> M Thrown S Repo.
Variable renderRepoCard : Repo -> Options Flag -> Completion Thrown string.

(** [exports.handler]; [context] is not read. *)
Definition handler (event : Event) (env : Env)
  : M Thrown S HandlerResponse :=
  let query := queryStringParameters event in
  let username := get "username" query in
  let repo := get "repo" query in
  let hide_border := get "hide_border" query in
  let title_color := get "title_color" query in
  let icon_color := get "icon_color" query in
  let text_color := get "text_color" query in
  let bg_color := get "bg_color" query in
  let theme := get "theme" query in
  let show_owner := get "show_owner" query in
  let cache_seconds := get "cache_seconds" query in
  let locale := get "locale" query in
  let border_radius := get "border_radius" query in
  let border_color := get "border_color" query in
  let description_lines_count := get "description_lines_count" query in
  let colors := error_options query in
  let statusCode := 200%Z in
  let headers := [("Content-Type", "image/svg+xml")] in
  if includes blacklist username then
    ret {| statusCode := 403;
           headers := headers;
           body := renderError "Something went wrong"
                     (Some "This username is blacklisted") colors |}
  else if unavailable isLocaleAvailable locale then
    ret {| statusCode := 400;
           headers := headers;
           body := renderError "Something went wrong"
                     (Some "Language not found") colors |}
  else
    try_catch
      (repoData <- fetchRepo username repo ;;
       let cacheSeconds :=
         clampValue
           (parseInt_or cache_seconds (PIN_CARD_CACHE_SECONDS CONSTANTS))
           (ONE_DAY CONSTANTS) (TEN_DAY CONSTANTS) in
       let cacheSeconds := environment_cache_seconds env cacheSeconds in
       let headers :=
         set "Cache-Control"
           ("max-age=" ++ Number_toString cacheSeconds
            ++ ", s-maxage=" ++ Number_toString cacheSeconds)
           headers in
       body <- lift
         (renderRepoCard repoData
            {| hide_border := parseBoolean hide_border;
               title_color := title_color;
               icon_color := icon_color;
               text_color := text_color;
               bg_color := bg_color;
               theme := theme;
               border_radius := border_radius;
               border_color := border_color;
               show_owner := parseBoolean show_owner;
               locale := lower_locale locale;
               description_lines_count := description_lines_count |}) ;;
       ret {| statusCode := statusCode; headers := headers; body := body |})
      (fun err =>
         ret {| statusCode := 500;
                headers :=
                  set "Cache-Control" (error_cache_control CONSTANTS) headers;
                body := renderError (thrown_message err)
                          (thrown_secondaryMessage err) colors |}).

End Function.

End Pin.

(* ===================================================================== *)
(** * The gist card function *)
(* ===================================================================== *)

(** [netlify/functions/gist.js]. *)
Module Gist.
Import Card.

(** The options handed to [renderGistCard]. *)
Record Options (Flag : Type) : Type := {
  title_color : option string;
  icon_color : option string;
  text_color : option string;
  bg_color : option string;
  theme : option string;
  border_radius : option string;
  border_color : option string;
  locale : option string;
  show_owner : Flag;
  hide_border : Flag
}.

Section Function.

Variable S : Type.
Variable GistData : Type.
Variable Flag : Type.
Variable CONSTANTS : Constants.
Variable isLocaleAvailable : string -> bool.
Variable renderError : string -> option string -> ErrorOptions -> string.
Variable clampValue : Number -> Z -> Z -> Number.
Variable parseBoolean : option string -> Flag.
Variable fetchGist : option string -> M Thrown S GistData.
Variable renderGistCard :
  GistData -> Options Flag -> Completion Thrown string.

(** [exports.handler]; [context] is not read. *)
Definition handler (event : Event) (env : Env)
  : M Thrown S HandlerResponse :=
  let query := queryStringParameters event in
  let id := get "id" query in
  let title_color := get "title_color" query in
  let icon_color := get "icon_color" query in
  let text_color := get "text_color" query in
  let bg_color := get "bg_color" query in
  let theme := get "theme" query in
  let cache_seconds := get "cache_seconds" query in
  let locale := get "locale" query in
  let border_radius := get "border_radius" query in
  let border_color := get "border_color" query in
  let show_owner := get "show_owner" query in
  let hide_border := get "hide_border" query in
  let colors := error_options query in
  let statusCode := 200%Z in
  let headers := [("Content-Type", "image/svg+xml")] in
  if unavailable isLocaleAvailable locale then
    ret {| statusCode := 400;
           headers := headers;
           body := renderError "Something went wrong"
                     (Some "Language not found") colors |}
  else
    try_catch
      (gistData <- fetchGist id ;;
       let cacheSeconds :=
         clampValue
           (parseInt_or cache_seconds (TWO_DAY CONSTANTS))
           (TWO_DAY CONSTANTS) (SIX_DAY CONSTANTS) in
       let cacheSeconds := environment_cache_seconds env cacheSeconds in
       let headers :=
         set "Cache-Control"
           ("max-age=" ++ Number_toString cacheSeconds
            ++ ", s-maxage=" ++ Number_toString cacheSeconds)
           headers in
       body <- lift
         (renderGistCard gistData
            {| title_color := title_color;
               icon_color := icon_color;
               text_color := text_color;
               bg_color := bg_color;
               theme := theme;
               border_radius := border_radius;
               border_color := border_color;
               locale := lower_locale locale;
               show_owner := parseBoolean show_owner;
               hide_border := parseBoolean hide_border |}) ;;
       ret {| statusCode := statusCode; headers := headers; body := body |})
      (fun err =>
         ret {| statusCode := 500;
                headers :=
                  set "Cache-Control" (error_cache_control CONSTANTS) headers;
                body := renderError (thrown_message err)
                          (thrown_secondaryMessage err) colors |}).

End Function.

End Gist.

(* ===================================================================== *)
(** * The stats card function *)
(* ===================================================================== *)

(** The function with [fetchStats] and [renderStatsCard]; the name of its
    file is not known. *)
Module Stats.
Import Card.

(** The options handed to [renderStatsCard]. *)
Record Options (Flag : Type) : Type := {
  hide : list string;
  show_icons : Flag;
  hide_title : Flag;
  hide_border : Flag;
  card_width : Number;
  hide_rank : Flag;
  include_all_commits : Flag;
  line_height : option string;
  title_color : option string;
  ring_color : option string;
  icon_color : option string;
  text_color : option string;
  text_bold : Flag;
  bg_color : option string;
  theme : option string;
  custom_title : option string;
  border_radius : option string;
  border_color : option string;
  number_format : option string;
  locale : option string;
  disable_animations : Flag;
  rank_icon : option string;
  show : list string
}.

Section Function.

Variable S : Type.
Variable StatsData : Type.
Variable Flag : Type.
Variable CONSTANTS : Constants.
Variable blacklist : list string.
Variable isLocaleAvailable : string -> bool.
Variable renderError : string -> option string -> ErrorOptions -> string.
Variable clampValue : Number -> Z -> Z -> Number.
Variable parseBoolean : option string -> Flag.
Variable parseArray : option string -> list string.
(** [fetchStats(username, include_all_commits, exclude_repo,
    include_merged_pull_requests, include_discussions,
    include_discussions_answers)]. *)
Variable fetchStats :
  option string -> Flag -> list string -> bool -> bool -> bool
  -> M Thrown S StatsData.
Variable renderStatsCard :
  StatsData -> Options Flag -> Completion Thrown string.

(** [showStats.includes(name)]. *)
Definition shows (showStats : list string) (name : string) : bool :=
  existsb (String.eqb name) showStats.

(** [exports.handler]; [context] is not read. *)
Definition handler (event : Event) (env : Env)
  : M Thrown S HandlerResponse :=
  let query := queryStringParameters event in
  let username := get "username" query in
  let hide := get "hide" query in
  let hide_title := get "hide_title" query in
  let hide_border := get "hide_border" query in
  let card_width := get "card_width" query in
  let hide_rank := get "hide_rank" query in
  let show_icons := get "show_icons" query in
  let include_all_commits := get "include_all_commits" query in
  let line_height := get "line_height" query in
  let title_color := get "title_color" query in
  let ring_color := get "ring_color" query in
  let icon_color := get "icon_color" query in
  let text_color := get "text_color" query in
  let text_bold := get "text_bold" query in
  let bg_color := get "bg_color" query in
  let theme := get "theme" query in
  let cache_seconds := get "cache_seconds" query in
  let exclude_repo := get "exclude_repo" query in
  let custom_title := get "custom_title" query in
  let locale := get "locale" query in
  let disable_animations := get "disable_animations" query in
  let border_radius := get "border_radius" query in
  let number_format := get "number_format" query in
  let border_color := get "border_color" query in
  let rank_icon := get "rank_icon" query in
  let show := get "show" query in
  let colors := error_options query in
  let statusCode := 200%Z in
  let headers := [("Content-Type", "image/svg+xml")] in
  if includes blacklist username then
    ret {| statusCode := 403;
           headers := headers;
           body := renderError "Something went wrong"
                     (Some "This username is blacklisted") colors |}
  else if unavailable isLocaleAvailable locale then
    ret {| statusCode := 400;
           headers := headers;
           body := renderError "Something went wrong"
                     (Some "Language not found") colors |}
  else
    try_catch
      (let showStats := parseArray show in
       stats <- fetchStats username
                  (parseBoolean include_all_commits)
                  (parseArray exclude_repo)
                  (shows showStats "prs_merged"
                   || shows showStats "prs_merged_percentage")
                  (shows showStats "discussions_started")
                  (shows showStats "discussions_answered") ;;
       let cacheSeconds :=
         clampValue
           (parseInt_or cache_seconds (CARD_CACHE_SECONDS CONSTANTS))
           (TWELVE_HOURS CONSTANTS) (TWO_DAY CONSTANTS) in
       let cacheSeconds := environment_cache_seconds env cacheSeconds in
       let headers :=
         set "Cache-Control"
           ("max-age=" ++ Number_toString cacheSeconds
            ++ ", s-maxage=" ++ Number_toString cacheSeconds
            ++ ", stale-while-revalidate="
            ++ Number_toString (Some (ONE_DAY CONSTANTS)))
           headers in
       body <- lift
         (renderStatsCard stats
            {| hide := parseArray hide;
               show_icons := parseBoolean show_icons;
               hide_title := parseBoolean hide_title;
               hide_border := parseBoolean hide_border;
               card_width := parseInt_value card_width;
               hide_rank := parseBoolean hide_rank;
               include_all_commits := parseBoolean include_all_commits;
               line_height := line_height;
               title_color := title_color;
               ring_color := ring_color;
               icon_color := icon_color;
               text_color := text_color;
               text_bold := parseBoolean text_bold;
               bg_color := bg_color;
               theme := theme;
               custom_title := custom_title;
               border_radius := border_radius;
               border_color := border_color;
               number_format := number_format;
               locale := lower_locale locale;
               disable_animations := parseBoolean disable_animations;
               rank_icon := rank_icon;
               show := showStats |}) ;;
       ret {| statusCode := statusCode; headers := headers; body := body |})
      (fun err =>
         ret {| statusCode := 500;
                headers :=
                  set "Cache-Control" (error_cache_control CONSTANTS) headers;
                body := renderError (thrown_message err)
                          (thrown_secondaryMessage err) colors |}).

End Function.

End Stats.

(* ===================================================================== *)
(** * The top languages card function *)
(* ===================================================================== *)

(** The function with [fetchTopLanguages] and [renderTopLanguages]; the
    name of its file is not known. *)
Module TopLangs.
Import Card.

(** The options handed to [renderTopLanguages]. *)
Record Options (Flag : Type) : Type := {
  custom_title : option string;
  hide_title : Flag;
  hide_border : Flag;
  card_width : Number;
  hide : list string;
  title_color : option string;
  text_color : option string;
  bg_color : option string;
  theme : option string;
  layout : option string;
  langs_count : option string;
  border_radius : option string;
  border_color : option string;
  locale : option string;
  disable_animations : Flag;
  hide_progress : Flag
}.

(** The layouts that the function lets through. *)
Definition layouts : list string :=
  ["compact"; "normal"; "donut"; "donut-vertical"; "pie"].

(** [layout !== undefined && (typeof layout !== "string" ||
    ![...].includes(layout))] for a value that is a text or [undefined]. *)
Definition incorrect_layout (layout : option string) : bool :=
  match layout with
  | Some l => negb (existsb (String.eqb l) layouts)
  | None => false
  end.

Section Function.

Variable S : Type.
Variable Langs : Type.
Variable Flag : Type.
Variable CONSTANTS : Constants.
Variable blacklist : list string.
Variable isLocaleAvailable : string -> bool.
Variable renderError : string -> option string -> ErrorOptions -> string.
Variable parseBoolean : option string -> Flag.
Variable parseArray : option string -> list string.
(** [fetchTopLanguages(username, exclude_repo, size_weight,
    count_weight)]. *)
Variable fetchTopLanguages :
  option string -> list string -> option string -> option string
  -> M Thrown S Langs.
Variable renderTopLanguages :
  Langs -> Options Flag -> Completion Thrown string.

(** [exports.handler]; [context] is not read. *)
Definition handler (event : Event) (env : Env)
  : M Thrown S HandlerResponse :=
  let query := queryStringParameters event in
  let username := get "username" query in
  let hide := get "hide" query in
  let hide_title := get "hide_title" query in
  let hide_border := get "hide_border" query in
  let card_width := get "card_width" query in
  let title_color := get "title_color" query in
  let text_color := get "text_color" query in
  let bg_color := get "bg_color" query in
  let theme := get "theme" query in
  let cache_seconds := get "cache_seconds" query in
  let layout := get "layout" query in
  let langs_count := get "langs_count" query in
  let exclude_repo := get "exclude_repo" query in
  let size_weight := get "size_weight" query in
  let count_weight := get "count_weight" query in
  let custom_title := get "custom_title" query in
  let locale := get "locale" query in
  let border_radius := get "border_radius" query in
  let border_color := get "border_color" query in
  let disable_animations := get "disable_animations" query in
  let hide_progress := get "hide_progress" query in
  let colors := error_options query in
  let statusCode := 200%Z in
  let headers := [("Content-Type", "image/svg+xml")] in
  if includes blacklist username then
    ret {| statusCode := 403;
           headers := headers;
           body := renderError "Something went wrong"
                     (Some "This username is blacklisted") colors |}
  else if unavailable isLocaleAvailable locale then
    ret {| statusCode := 400;
           headers := headers;
           body := renderError "Something went wrong"
                     (Some "Locale not found") colors |}
  else if incorrect_layout layout then
    ret {| statusCode := 400;
           headers := headers;
           body := renderError "Something went wrong"
                     (Some "Incorrect layout input") colors |}
  else
    try_catch
      (topLangs <- fetchTopLanguages username (parseArray exclude_repo)
                     size_weight count_weight ;;
       let cacheSeconds :=
         parseInt_or cache_seconds (TOP_LANGS_CACHE_SECONDS CONSTANTS) in
       let cacheSeconds := environment_cache_seconds env cacheSeconds in
       let headers :=
         set "Cache-Control"
           ("max-age=" ++ half_toString cacheSeconds
            ++ ", s-maxage=" ++ Number_toString cacheSeconds)
           headers in
       body <- lift
         (renderTopLanguages topLangs
            {| custom_title := custom_title;
               hide_title := parseBoolean hide_title;
               hide_border := parseBoolean hide_border;
               card_width := parseInt_value card_width;
               hide := parseArray hide;
               title_color := title_color;
               text_color := text_color;
               bg_color := bg_color;
               theme := theme;
               layout := layout;
               langs_count := langs_count;
               border_radius := border_radius;
               border_color := border_color;
               locale := lower_locale locale;
               disable_animations := parseBoolean disable_animations;
               hide_progress := parseBoolean hide_progress |}) ;;
       ret {| statusCode := statusCode; headers := headers; body := body |})
      (fun err =>
         ret {| statusCode := 500;
                headers :=
                  set "Cache-Control" (error_cache_control CONSTANTS) headers;
                body := renderError (thrown_message err)
                          (thrown_secondaryMessage err) colors |}).

End Function.

End TopLangs.

(* ===================================================================== *)
(** * More sample runs *)
(* ===================================================================== *)

Module MoreSamples.
Import PatInfo Samples.

Definition good_call : Attempt unit :=
  {| attempt_pat := "PAT_2"; attempt_token := Some "good";
     attempt_result := Normal (quota 4999);
     attempt_after := tt |}.

Definition odd_call : Attempt unit :=
  {| attempt_pat := "PAT_1"; attempt_token := Some "odd";
     attempt_result := Normal not_found_and_no_quota;
     attempt_after := tt |}.

(** A payload with an empty [errors] array and nothing else. *)
Definition hollow : AxiosResponse :=
  {| response_data := {| errors := Some []; data := None |} |}.

Definition hollow_wire
  : RequestData -> JsObject string -> M Error unit AxiosResponse :=
  fun data headers w =>
    match get "Authorization" headers with
    | Some "bearer hollow" => (Normal hollow, w)
    | _ => wire data headers w
    end.

Definition env_hollow : Env :=
  [("PAT_1", "good"); ("PAT_2", "hollow"); ("PAT_3", "good")].

Definition hollow_call : Attempt unit :=
  {| attempt_pat := "PAT_2"; attempt_token := Some "hollow";
     attempt_result := Normal hollow;
     attempt_after := tt |}.

Definition hollow_run : Completion Error PATInfo * Run unit :=
  getPATInfo clock parse dateDiff_minutes (uptimeFetcher hollow_wire) []
    env_hollow (start tt).

Definition env_without_credentials : Env :=
  [("HOME", "/root"); ("PATH", "/usr/bin")].

(** ** The card functions on samples: the state counts the fetches. *)

Definition constants : Card.Constants :=
  {| Card.CARD_CACHE_SECONDS := 21600;
     Card.PIN_CARD_CACHE_SECONDS := 864000;
     Card.TOP_LANGS_CACHE_SECONDS := 518400;
     Card.ERROR_CACHE_SECONDS := 600;
     Card.SIX_HOURS := 21600;
     Card.TWELVE_HOURS := 43200;
     Card.ONE_DAY := 86400;
     Card.TWO_DAY := 172800;
     Card.SIX_DAY := 518400;
     Card.TEN_DAY := 864000 |}.

Definition available (locale : string) : bool :=
  String.eqb locale "en" || String.eqb locale "fr".

Definition error_card (text : string) (second : option string)
  (options : Card.ErrorOptions) : string :=
  text ++ match second with Some t => ": " ++ t | None => "" end.

Definition clamp (n : Number) (low high : Z) : Number :=
  match n with
  | Some z => Some (Z.max low (Z.min z high))
  | None => Some low
  end.

Definition flag (v : option string) : bool := strict_eq v "true".

Definition one_entry (v : option string) : list string :=
  match v with
  | Some s => [s]
  | None => []
  end.

Definition fetched : M Card.Thrown nat unit := fun n => (Normal tt, S n).

Definition card {Options : Type} (data : unit) (options : Options)
  : Completion Card.Thrown string := Normal "<svg/>".

Definition event : Card.Event :=
  {| Card.queryStringParameters :=
       [("username", "octocat"); ("cache_seconds", "100")] |}.

Definition env_with_cache_seconds : Env := [("CACHE_SECONDS", "7200")].

Definition answer_of (run : Completion Card.Thrown HandlerResponse * nat)
  : HandlerResponse :=
  match fst run with
  | Normal response => response
  | Throw _ => {| statusCode := 0; headers := []; body := "" |}
  end.

Definition wakatime_run
  : Completion Card.Thrown HandlerResponse * nat :=
  Wakatime.handler constants available error_card clamp flag one_entry
    (fun _ _ => fetched) card event env_with_cache_seconds 0%nat.

Definition pin_run : Completion Card.Thrown HandlerResponse * nat :=
  Pin.handler constants ["spammer"] available error_card clamp flag
    (fun _ _ => fetched) card event env_with_cache_seconds 0%nat.

Definition gist_run : Completion Card.Thrown HandlerResponse * nat :=
  Gist.handler constants available error_card clamp flag
    (fun _ => fetched) card event env_with_cache_seconds 0%nat.

Definition stats_run : Completion Card.Thrown HandlerResponse * nat :=
  Stats.handler constants ["spammer"] available error_card clamp flag
    one_entry (fun _ _ _ _ _ _ => fetched) card event [] 0%nat.

Definition top_langs_run : Completion Card.Thrown HandlerResponse * nat :=
  TopLangs.handler constants ["spammer"] available error_card flag
    one_entry (fun _ _ _ _ => fetched) card event [] 0%nat.

End MoreSamples.

(* ===================================================================== *)
(** * Facts about objects *)
(* ===================================================================== *)

Section ObjectFacts.
Context {V : Type}.
Implicit Types (o : JsObject V) (k : string) (v : V).

Lemma get_set_same k v o : get k (set k v o) = Some v.
Proof.
  induction o as [|[k' v'] o IH]; simpl.
  - now rewrite String.eqb_refl.
  - destruct (String.eqb k k') eqn:E; simpl; rewrite ?String.eqb_refl, ?E; auto.
Qed.

Lemma get_set_other k k' v o : k <> k' -> get k' (set k v o) = get k' o.
Proof.
  intros Hne. induction o as [|[k0 v0] o IH]; simpl.
  - apply String.eqb_neq in Hne. rewrite String.eqb_sym in Hne.
    now rewrite Hne.
  - destruct (String.eqb k k0) eqn:E; simpl.
    + apply String.eqb_eq in E. subst k0.
      destruct (String.eqb k' k) eqn:E'; auto.
      apply String.eqb_eq in E'. congruence.
    + now rewrite IH.
Qed.

Lemma get_None_iff k o : get k o = None <-> ~ In k (keys o).
Proof.
  induction o as [|[k' v'] o IH]; simpl.
  - tauto.
  - destruct (String.eqb k k') eqn:E.
    + apply String.eqb_eq in E. subst. split; [discriminate | tauto].
    + apply String.eqb_neq in E. rewrite IH. split; intros H.
      * intros [H'|H']; [congruence | tauto].
      * tauto.
Qed.

Lemma get_Some_In k v o : get k o = Some v -> In k (keys o).
Proof.
  intros H. destruct (in_dec string_dec k (keys o)) as [|Hn]; auto.
  apply get_None_iff in Hn. congruence.
Qed.

Lemma In_get_Some k o : In k (keys o) -> exists v, get k o = Some v.
Proof.
  intros H. destruct (get k o) eqn:E; eauto.
  apply get_None_iff in E. tauto.
Qed.

Lemma keys_set_fresh k v o :
  ~ In k (keys o) -> keys (set k v o) = (keys o ++ [k])%list.
Proof.
  induction o as [|[k' v'] o IH]; simpl; intros H; auto.
  destruct (String.eqb k k') eqn:E.
  - apply String.eqb_eq in E. subst. tauto.
  - simpl. f_equal. apply IH. tauto.
Qed.

End ObjectFacts.

(* ===================================================================== *)
(** * Facts about the Status Prober *)
(* ===================================================================== *)

Section SortedDetailsFacts.
Import PatInfo.

Let refill (details : JsObject Detail) :=
  fun (obj : JsObject Detail) (key : string) =>
    match get key details with
    | Some d => set key d obj
    | None => obj
    end.

Lemma refill_spec (details : JsObject Detail) (l : list string) :
  forall acc,
    NoDup l ->
    (forall k, In k l -> ~ In k (keys acc)) ->
    (forall k, In k l -> In k (keys details)) ->
    keys (fold_left (refill details) l acc) = (keys acc ++ l)%list /\
    (forall k, In k l ->
       get k (fold_left (refill details) l acc) = get k details) /\
    (forall k, ~ In k l ->
       get k (fold_left (refill details) l acc) = get k acc).
Proof.
  induction l as [|x l IH]; intros acc Hnd Hfresh Hin; simpl.
  - rewrite app_nil_r. repeat split; auto. intros k [].
  - inversion Hnd as [|? ? Hx Hnd']; subst.
    destruct (In_get_Some x details (Hin x (or_introl eq_refl))) as [d Hd].
    assert (Hstep : refill details acc x = set x d acc)
      by (unfold refill; now rewrite Hd).
    rewrite Hstep.
    assert (Hkeys : keys (set x d acc) = (keys acc ++ [x])%list)
      by (apply keys_set_fresh, Hfresh; now left).
    destruct (IH (set x d acc)) as (IHk & IHin & IHout); auto.
    + intros k Hk. rewrite Hkeys. intros Hk'.
      apply in_app_or in Hk'. destruct Hk' as [Hk'|[Hk'|[]]].
      * apply (Hfresh k); [now right | assumption].
      * subst. tauto.
    + intros k Hk. apply Hin. now right.
    + split; [|split].
      * rewrite IHk, Hkeys, <- app_assoc. reflexivity.
      * intros k [Hk|Hk].
        -- subst k. destruct (in_dec string_dec x l) as [|Hn]; [tauto|].
           rewrite IHout by assumption. now rewrite get_set_same.
        -- now apply IHin.
      * intros k Hk. rewrite IHout by tauto.
        apply get_set_other. intros ->. apply Hk. now left.
Qed.

Lemma keys_sortedDetails (details : JsObject Detail) :
  NoDup (keys details) ->
  keys (sortedDetails details) = StringSort.sort (keys details).
Proof.
  intros Hnd. unfold sortedDetails.
  pose proof (StringSort.Permuted_sort (keys details)) as Hp.
  destruct (refill_spec details (l := StringSort.sort (keys details)) [])
    as (Hk & _ & _); auto.
  - eapply Permutation_NoDup; eauto.
  - intros k Hk. eapply Permutation_in; [symmetry|]; eauto.
Qed.

Lemma get_sortedDetails (details : JsObject Detail) (k : string) :
  NoDup (keys details) ->
  get k (sortedDetails details) = get k details.
Proof.
  intros Hnd. unfold sortedDetails.
  pose proof (StringSort.Permuted_sort (keys details)) as Hp.
  destruct (refill_spec details (l := StringSort.sort (keys details)) [])
    as (_ & Hin & Hout); auto.
  - eapply Permutation_NoDup; eauto.
  - intros k' Hk. eapply Permutation_in; [symmetry|]; eauto.
  - destruct (in_dec string_dec k (StringSort.sort (keys details)))
      as [Hk|Hk].
    + exact (Hin k Hk).
    + transitivity (get k ([] : JsObject Detail)); [exact (Hout k Hk)|].
      simpl. symmetry. apply get_None_iff.
      intros Hk'. apply Hk. eapply Permutation_in; eauto.
Qed.

Lemma In_filterPATsByStatus (details : JsObject Detail) (st pat : string) :
  In pat (filterPATsByStatus details st) <->
  exists d, get pat details = Some d /\ status d = st.
Proof.
  unfold filterPATsByStatus, has_status. rewrite filter_In. split.
  - intros [_ H]. destruct (get pat details) as [d|]; [|discriminate].
    exists d. split; auto. now apply String.eqb_eq.
  - intros (d & Hd & Hs). split; [eapply get_Some_In; eauto|].
    rewrite Hd. now apply String.eqb_eq.
Qed.

End SortedDetailsFacts.

Section ProberFacts.
Import PatInfo.

Variable W : Type.
Variable Date_now : W -> Z.
Variable Date_parse : string -> Date.
Variable dateDiff : Date -> Date -> Number.
Variable fetcher : Fetcher W.
Variable variables : AxiosRequestHeaders.
Variable env : Env.

Let pass := probe Date_now Date_parse dateDiff fetcher variables env.
Let recorded := Recorded Date_now Date_parse dateDiff.

(** One pass makes exactly one call, for its own credential, and what it
    stores or throws is determined by how that call ended. *)
Lemma probe_records (pat : string) (details : JsObject Detail) (s : Run W) :
  exists a : Attempt W,
    attempts (snd (pass pat details s)) = (attempts s ++ [a])%list /\
    world (snd (pass pat details s)) = attempt_after a /\
    attempt_pat a = pat /\
    attempt_token a = get pat env /\
    (forall details',
        fst (pass pat details s) = Normal details' ->
        exists x, details' = set pat x details /\ recorded a x) /\
    (forall err,
        attempt_result a = Throw err -> unrecognized err ->
        fst (pass pat details s) = Throw err).
Proof.
  unfold pass, probe, try_catch, bind, await_fetcher.
  destruct (fetcher variables (get pat env) (world s)) as [r w'] eqn:Hf.
  exists {| attempt_pat := pat; attempt_token := get pat env;
            attempt_result := r; attempt_after := w' |}.
  destruct r as [response|err]; simpl.
  - destruct (hasErrors response
              && negb (strict_eq (errorType response) "RATE_LIMITED"))
      eqn:Hother.
    + destruct (errors (response_data response)) as [[|e rest]|] eqn:Herrs;
        simpl; repeat split; auto; try discriminate.
      intros details' Hd. injection Hd as <-.
      eexists; split; [reflexivity|].
      eapply Recorded_error; simpl; eauto.
      apply andb_true_iff in Hother. destruct Hother as [_ Hother].
      unfold errorType in Hother. rewrite Herrs in Hother.
      now apply negb_true_iff in Hother.
    + destruct (isRateLimited response) eqn:Hrl.
      * unfold new_Date_now, ret. simpl. repeat split; auto; try discriminate.
        intros details' Hd. injection Hd as <-.
        eexists; split; [reflexivity|].
        exact (Recorded_exhausted Date_now Date_parse dateDiff
                 {| attempt_pat := pat; attempt_token := get pat env;
                    attempt_result := Normal response;
                    attempt_after := w' |} eq_refl Hother Hrl).
      * destruct (data (response_data response)) as [d|] eqn:Hdata;
          [destruct (rateLimit d) as [rl|] eqn:Hrate|];
          simpl; repeat split; auto; try discriminate.
        intros details' Hd. injection Hd as <-.
        eexists; split; [reflexivity|].
        eapply Recorded_valid; simpl; eauto.
        unfold rateLimit_of. now rewrite Hdata.
  - destruct (strict_eq (errorMessage err) "bad credentials") eqn:Hbad.
    + simpl. repeat split; auto.
      * intros details' Hd. injection Hd as <-.
        eexists; split; [reflexivity|].
        eapply Recorded_expired; simpl; eauto.
      * intros err' Herr [Hb _]. injection Herr as <-. congruence.
    + destruct (strict_eq (errorMessage err)
                  "sorry. your account was suspended.") eqn:Hsus.
      * simpl. repeat split; auto.
        -- intros details' Hd. injection Hd as <-.
           eexists; split; [reflexivity|].
           eapply Recorded_suspended; simpl; eauto.
        -- intros err' Herr [_ Hs]. injection Herr as <-. congruence.
      * simpl. repeat split; auto; try discriminate.
        intros err' Herr _. now injection Herr as <-.
Qed.

(** A rejected call is classified by its message alone, whatever else the
    rejection carries. *)
Lemma probe_classifies_rejection
  (pat : string) (details : JsObject Detail) (s : Run W)
  (err : Error) (w' : W) :
  fetcher variables (get pat env) (world s) = (Throw err, w') ->
  (strict_eq (errorMessage err) "bad credentials" = true ->
     fst (pass pat details s) = Normal (set pat Expired_detail details)) /\
  (strict_eq (errorMessage err) "bad credentials" = false ->
   strict_eq (errorMessage err) "sorry. your account was suspended." = true ->
     fst (pass pat details s) = Normal (set pat Suspended_detail details)).
Proof.
  intros Hf. unfold pass, probe, try_catch, bind, await_fetcher.
  rewrite Hf. split.
  - intros ->. reflexivity.
  - intros -> ->. reflexivity.
Qed.

(** A pass whose call ends in a classifiable way completes. *)
Lemma probe_completes (pat : string) (details : JsObject Detail) (s : Run W) :
  classifiable (fst (fetcher variables (get pat env) (world s))) ->
  exists details', fst (pass pat details s) = Normal details'.
Proof.
  unfold pass, probe, try_catch, bind, await_fetcher, classifiable,
    classifiable_response, unrecognized.
  destruct (fetcher variables (get pat env) (world s)) as [[response|err] w'];
    simpl.
  - destruct (hasErrors response
              && negb (strict_eq (errorType response) "RATE_LIMITED")).
    + destruct (errors (response_data response)) as [[|e rest]|];
        simpl; intros H; try discriminate; eauto.
    + destruct (isRateLimited response); simpl; [eauto|].
      unfold rateLimit_of.
      destruct (data (response_data response)) as [d|];
        [destruct (rateLimit d)|]; simpl; intros H; try discriminate; eauto.
  - destruct (strict_eq (errorMessage err) "bad credentials");
      [simpl; eauto|].
    destruct (strict_eq (errorMessage err)
                "sorry. your account was suspended."); simpl; [eauto|].
    intros H. exfalso. apply H. auto.
Qed.

(** A loop all of whose calls end in a classifiable way completes. *)
Lemma for_of_probe_total (pats : list string) :
  (forall token w, classifiable (fst (fetcher variables token w))) ->
  forall (details : JsObject Detail) (s : Run W),
  exists details', fst (for_of pats pass details s) = Normal details'.
Proof.
  intros Hall. induction pats as [|p pats IH]; intros details s; simpl.
  - eauto.
  - unfold bind.
    destruct (probe_completes p details s (Hall _ _)) as (d1 & Hd1).
    destruct (pass p details s) as [[d|e] s1]; simpl in *; [|discriminate].
    apply IH.
Qed.

(** A loop that runs to its end has made one call per credential, in
    order, and holds one entry per credential, each as recorded. *)
Lemma for_of_probe_completes (pats : list string) :
  forall (details : JsObject Detail) (s : Run W) details' s',
    for_of pats pass details s = (Normal details', s') ->
    NoDup pats ->
    (forall p, In p pats -> ~ In p (keys details)) ->
    exists l : list (Attempt W),
      attempts s' = (attempts s ++ l)%list /\
      map (@attempt_pat W) l = pats /\
      map (@attempt_token W) l = map (fun p => get p env) pats /\
      keys details' = (keys details ++ pats)%list /\
      (forall k, In k (keys details) -> get k details' = get k details) /\
      Forall (fun a => exists x,
                get (attempt_pat a) details' = Some x /\ recorded a x) l.
Proof.
  induction pats as [|p pats IH]; intros details s details' s' Hrun Hnd Hfresh.
  - injection Hrun as <- <-. exists []. rewrite !app_nil_r.
    repeat split; auto.
  - simpl in Hrun. unfold bind in Hrun.
    destruct (probe_records p details s)
      as (a & Hatt & _ & Hpat & Htok & Hnormal & _).
    destruct (pass p details s) as [[d1|e] s1] eqn:Hpass;
      [|discriminate]. simpl in *.
    destruct (Hnormal d1 eq_refl) as (x & -> & Hrec).
    inversion Hnd as [|? ? Hp Hnd']; subst.
    assert (Hkeys1 : keys (set (attempt_pat a) x details)
                     = (keys details ++ [attempt_pat a])%list)
      by (apply keys_set_fresh, Hfresh; now left).
    destruct (IH _ _ _ _ Hrun Hnd') as (l & Hl & Hpats & Htoks & Hk & Hold & Hall).
    { intros q Hq. rewrite Hkeys1. intros Hin.
      apply in_app_or in Hin. destruct Hin as [Hin|[Hin|[]]].
      - apply (Hfresh q); [now right | assumption].
      - subst. tauto. }
    exists (a :: l). simpl. repeat split.
    + now rewrite Hl, Hatt, <- app_assoc.
    + now rewrite Hpats.
    + now rewrite Htoks, Htok.
    + now rewrite Hk, Hkeys1, <- app_assoc.
    + intros k Hk'. rewrite Hold.
      * apply get_set_other. intros <-.
        apply (Hfresh (attempt_pat a)); [now left | assumption].
      * rewrite Hkeys1. apply in_or_app. now left.
    + constructor; auto. exists x. split; auto.
      rewrite Hold.
      * apply get_set_same.
      * rewrite Hkeys1. apply in_or_app. right. now left.
Qed.

(** A call that ends in an unrecognized error ends the loop: its error is
    the loop's, and no call follows it. *)
Lemma for_of_probe_aborts (pats : list string) :
  forall (details : JsObject Detail) (s : Run W),
    exists l : list (Attempt W),
      attempts (snd (for_of pats pass details s)) = (attempts s ++ l)%list /\
      forall a err,
        In a l -> attempt_result a = Throw err -> unrecognized err ->
        fst (for_of pats pass details s) = Throw err /\
        exists l0, l = (l0 ++ [a])%list.
Proof.
  induction pats as [|p pats IH]; intros details s.
  - exists []. simpl. rewrite app_nil_r. split; auto. intros a err [].
  - simpl. unfold bind.
    destruct (probe_records p details s)
      as (a & Hatt & _ & _ & _ & _ & Hthrow).
    destruct (pass p details s) as [[d1|e] s1] eqn:Hpass; simpl in *.
    + destruct (IH d1 s1) as (l & Hl & Hlast).
      exists (a :: l). split.
      * now rewrite Hl, Hatt, <- app_assoc.
      * intros a' err [<-|Hin] Hres Hun.
        -- specialize (Hthrow err Hres Hun). discriminate.
        -- destruct (Hlast a' err Hin Hres Hun) as (Hfst & l0 & ->).
           split; [assumption|]. now exists (a :: l0).
    + exists [a]. split; auto.
      intros a' err [<-|[]] Hres Hun. split; auto. now exists [].
Qed.

(** The credentials of a series of calls are those it was made for. *)
Lemma fetcher_trace_pats (pats : list string) :
  forall w : W,
    map (@attempt_pat W) (fetcher_trace fetcher variables env pats w) = pats.
Proof.
  induction pats as [|p pats IH]; intros w; simpl; [reflexivity|].
  now rewrite IH.
Qed.

(** One pass applies the fetcher once, to the world it finds, and does
    nothing else to the world. *)
Lemma probe_calls_fetcher (pat : string) (details : JsObject Detail)
  (s : Run W) :
  attempts (snd (pass pat details s))
    = (attempts s ++ fetcher_trace fetcher variables env [pat] (world s))%list
  /\ world (snd (pass pat details s))
    = snd (fetcher variables (get pat env) (world s)).
Proof.
  unfold pass, probe, try_catch, bind, await_fetcher. simpl.
  destruct (fetcher variables (get pat env) (world s)) as [[response|err] w'];
    simpl.
  - destruct (hasErrors response
              && negb (strict_eq (errorType response) "RATE_LIMITED")).
    + destruct (errors (response_data response)) as [[|e rest]|];
        simpl; split; reflexivity.
    + destruct (isRateLimited response); simpl; [split; reflexivity|].
      destruct (data (response_data response)) as [d|];
        [destruct (rateLimit d)|]; simpl; split; reflexivity.
  - destruct (strict_eq (errorMessage err) "bad credentials");
      [simpl; split; reflexivity|].
    destruct (strict_eq (errorMessage err)
                "sorry. your account was suspended.");
      simpl; split; reflexivity.
Qed.

(** The calls of a loop are the fetcher's own: the log it leaves is the
    fetcher applied to the credentials it got through, one after the
    other, each to the world that the one before left; the world at the
    end is the one that the last application left; a loop that runs to
    its end got through all of them. *)
Lemma for_of_probe_calls_fetcher (pats : list string) :
  forall (details : JsObject Detail) (s : Run W),
  exists made rest : list string,
    pats = (made ++ rest)%list /\
    attempts (snd (for_of pats pass details s))
      = (attempts s
         ++ fetcher_trace fetcher variables env made (world s))%list /\
    world (snd (for_of pats pass details s))
      = world_after (world s)
          (fetcher_trace fetcher variables env made (world s)) /\
    (forall details', fst (for_of pats pass details s) = Normal details' ->
                      rest = []).
Proof.
  induction pats as [|p pats IH]; intros details s.
  - exists [], []. simpl. rewrite app_nil_r. repeat split; auto.
  - simpl. unfold bind.
    destruct (probe_calls_fetcher p details s) as [Hatt Hw].
    destruct (pass p details s) as [[d1|e] s1]; simpl in Hatt, Hw.
    + destruct (IH d1 s1) as (made & rest & Hpats & Hl & Hworld & Hend).
      rewrite Hw in Hl, Hworld. exists (p :: made), rest. simpl.
      split; [now rewrite Hpats|].
      split; [now rewrite Hl, Hatt, <- app_assoc|].
      split; [exact Hworld|exact Hend].
    + exists [p], pats. simpl.
      split; [reflexivity|]. split; [exact Hatt|].
      split; [exact Hw|]. intros d Hd. discriminate.
Qed.

End ProberFacts.

(** The order of [Array.prototype.sort()] on strings is transitive. *)
Lemma String_leb_trans (x y z : string) :
  String.leb x y = true -> String.leb y z = true -> String.leb x z = true.
Proof.
  unfold String.leb. revert y z.
  induction x as [|a x IH]; intros [|b y] [|c z]; simpl; try congruence.
  unfold Ascii.compare.
  destruct (N.compare_spec (N_of_ascii a) (N_of_ascii b)) as [Hab|Hab|Hab];
    destruct (N.compare_spec (N_of_ascii b) (N_of_ascii c)) as [Hbc|Hbc|Hbc];
    destruct (N.compare_spec (N_of_ascii a) (N_of_ascii c)) as [Hac|Hac|Hac];
    try congruence; try lia; auto.
  apply IH.
Qed.

Lemma sort_StronglySorted (l : list string) :
  StronglySorted (fun x y => String.leb x y = true) (StringSort.sort l).
Proof.
  apply Sorted_StronglySorted.
  - intros x y z. apply String_leb_trans.
  - exact (StringSort.Sorted_sort l).
Qed.

Section ReportFacts.
Import PatInfo.

Variable W : Type.
Variable Date_now : W -> Z.
Variable Date_parse : string -> Date.
Variable dateDiff : Date -> Date -> Number.
Variable fetcher : Fetcher W.
Variable variables : AxiosRequestHeaders.
Variable env : Env.

Let probe_all := getPATInfo Date_now Date_parse dateDiff fetcher variables env.
Let recorded := Recorded Date_now Date_parse dateDiff.

Lemma NoDup_getAllPATs : NoDup (keys env) -> NoDup (getAllPATs env).
Proof. intros H. now apply NoDup_filter. Qed.

(** The report of a completed probe, in terms of the unsorted [details]
    that the loop has filled. *)
Lemma getPATInfo_report (w : W) (info : PATInfo) (s' : Run W) :
  NoDup (keys env) ->
  probe_all (start w) = (Normal info, s') ->
  exists unsorted : JsObject Detail,
    keys unsorted = getAllPATs env /\
    details info = sortedDetails unsorted /\
    validPATs info = filterPATsByStatus unsorted "valid" /\
    expiredPATs info = filterPATsByStatus unsorted "expired" /\
    exhaustedPATs info = filterPATsByStatus unsorted "exhausted" /\
    suspendedPATs info = filterPATsByStatus unsorted "suspended" /\
    errorPATs info = filterPATsByStatus unsorted "error" /\
    map (@attempt_pat W) (attempts s') = getAllPATs env /\
    map (@attempt_token W) (attempts s')
      = map (fun p => get p env) (getAllPATs env) /\
    Forall (fun a => exists x,
              get (attempt_pat a) unsorted = Some x /\ recorded a x)
      (attempts s').
Proof.
  intros Hnd Hrun. unfold probe_all, getPATInfo, bind in Hrun.
  destruct (for_of (getAllPATs env)
              (probe Date_now Date_parse dateDiff fetcher variables env)
              [] (start w)) as [[unsorted|e] s1] eqn:Hloop; [|discriminate].
  injection Hrun as <- <-.
  apply for_of_probe_completes in Hloop;
    [|now apply NoDup_getAllPATs|intros p _ []].
  destruct Hloop as (l & Hl & Hpats & Htoks & Hk & _ & Hall).
  simpl in Hl, Hk. subst l.
  exists unsorted. simpl. repeat split; auto.
Qed.

(** The probe completes when every call of the fetcher ends in a way
    that a pass can classify. *)
Lemma getPATInfo_completes (s : Run W) :
  (forall token w, classifiable (fst (fetcher variables token w))) ->
  exists info, fst (probe_all s) = Normal info.
Proof.
  intros Hall. unfold probe_all, getPATInfo, bind.
  destruct (@for_of_probe_total W Date_now Date_parse dateDiff fetcher
              variables env (getAllPATs env) Hall [] s) as (d & Hd).
  destruct (for_of (getAllPATs env)
              (probe Date_now Date_parse dateDiff fetcher variables env)
              [] s) as [[d'|e] s1]; simpl in *; [eauto|discriminate].
Qed.

(** The entries of the sorted [details] are those of the unsorted one. *)
Lemma report_lookup (unsorted : JsObject Detail) :
  NoDup (keys env) ->
  keys unsorted = getAllPATs env ->
  forall pat, get pat (sortedDetails unsorted) = get pat unsorted.
Proof.
  intros Hnd Hk pat. apply get_sortedDetails. rewrite Hk.
  now apply NoDup_getAllPATs.
Qed.

(** A probe whose loop meets an unrecognized error throws that error, and
    the failed call is the last one made. *)
Lemma getPATInfo_aborts (s : Run W) (a : Attempt W) (err : Error) :
  attempts s = [] ->
  In a (attempts (snd (probe_all s))) ->
  attempt_result a = Throw err ->
  unrecognized err ->
  fst (probe_all s) = Throw err /\
  exists before, attempts (snd (probe_all s)) = (before ++ [a])%list.
Proof.
  intros Hs Hin Hres Hun. unfold probe_all, getPATInfo, bind in *.
  destruct (@for_of_probe_aborts W Date_now Date_parse dateDiff fetcher
              variables env (getAllPATs env) [] s) as (l & Hl & Hlast).
  destruct (for_of (getAllPATs env)
              (probe Date_now Date_parse dateDiff fetcher variables env)
              [] s) as [[d|e] s1] eqn:Hloop; simpl in *;
    rewrite Hs in Hl; simpl in Hl; subst l;
    destruct (Hlast a err Hin Hres Hun) as (Hfst & l0 & Hl0).
  - discriminate.
  - injection Hfst as ->. split; [reflexivity | now exists l0].
Qed.

(** The log of a probe that starts in the world [w] is the fetcher
    applied along the pool, as far as the probe got. *)
Lemma getPATInfo_calls_fetcher (w : W) :
  exists made rest : list string,
    getAllPATs env = (made ++ rest)%list /\
    attempts (snd (probe_all (start w)))
      = fetcher_trace fetcher variables env made w /\
    world (snd (probe_all (start w)))
      = world_after w (attempts (snd (probe_all (start w)))) /\
    (forall info, fst (probe_all (start w)) = Normal info -> rest = []).
Proof.
  unfold probe_all, getPATInfo, bind.
  destruct (@for_of_probe_calls_fetcher W Date_now Date_parse dateDiff
              fetcher variables env (getAllPATs env) [] (start w))
    as (made & rest & Hpats & Hl & Hworld & Hend).
  destruct (for_of (getAllPATs env)
              (probe Date_now Date_parse dateDiff fetcher variables env)
              [] (start w)) as [[d|e] s1]; simpl in *;
    exists made, rest; rewrite Hl;
    (split; [exact Hpats|]; split; [reflexivity|]; split; [exact Hworld|]).
  - intros info _. now apply (Hend d).
  - intros info Hinfo. discriminate.
Qed.

End ReportFacts.

(* ===================================================================== *)
(** * The Status Prober: the claims *)
(* ===================================================================== *)

Section StatusProber.
Import PatInfo.

Variable W : Type.
Variable Date_now : W -> Z.
Variable Date_parse : string -> Date.
Variable dateDiff : Date -> Date -> Number.
Variable fetcher : Fetcher W.
Variable variables : AxiosRequestHeaders.
Variable env : Env.

Let probe_all := getPATInfo Date_now Date_parse dateDiff fetcher variables env.

(** C1.  A probe that completes has called the fetcher once for every
    configured credential, in the order of the pool and with that
    credential's token, whatever the earlier calls gave: the calls it
    leaves are the applications of the fetcher itself along the whole
    pool, each to the world that the one before left and with the result
    and the world that this application gives, and the world at the end is
    the one that the last of them left; and [details] holds exactly one
    entry per configured credential. *)
Theorem getPATInfo_probes_every_credential
  (w : W) (info : PATInfo) (s' : Run W) :
  NoDup (keys env) ->
  probe_all (start w) = (Normal info, s') ->
  attempts s' = fetcher_trace fetcher variables env (getAllPATs env) w /\
  world s' = world_after w (attempts s') /\
  map (@attempt_pat W) (attempts s') = getAllPATs env /\
  map (@attempt_token W) (attempts s')
    = map (fun pat => get pat env) (getAllPATs env) /\
  NoDup (keys (details info)) /\
  (forall pat, In pat (keys (details info)) <-> In pat (getAllPATs env)) /\
  List.length (details info) = List.length (getAllPATs env).
Proof.
  intros Hnd Hrun.
  destruct (getPATInfo_report _ _ _ _ _ _ _ Hnd Hrun)
    as (unsorted & Hk & Hd & _ & _ & _ & _ & _ & Hpats & Htoks & _).
  assert (Hnd' : NoDup (keys unsorted))
    by (rewrite Hk; now apply NoDup_getAllPATs).
  assert (Hperm : Permutation (getAllPATs env) (keys (details info))).
  { rewrite Hd, keys_sortedDetails, Hk by assumption.
    apply StringSort.Permuted_sort. }
  destruct (@getPATInfo_calls_fetcher W Date_now Date_parse dateDiff
              fetcher variables env w)
    as (made & rest & Hmade & Hlog & Hworld & Hend).
  fold probe_all in Hlog, Hworld, Hend. rewrite Hrun in Hlog, Hworld, Hend.
  simpl in Hlog, Hworld, Hend.
  rewrite (Hend info eq_refl), app_nil_r in Hmade. subst made.
  repeat split; auto.
  - eapply Permutation_NoDup; [exact Hperm|]. now apply NoDup_getAllPATs.
  - intros H. eapply Permutation_in; [symmetry|]; eauto.
  - intros H. eapply Permutation_in; eauto.
  - unfold keys in Hperm. apply Permutation_length in Hperm.
    now rewrite length_map in Hperm.
Qed.

(** C3.  In a completed probe, a credential whose call was rejected with
    the bad-credentials message is reported as expired, and one whose call
    was rejected with the account-suspended message as suspended; neither
    is among the exhausted credentials. *)
Theorem rejected_credential_is_expired_or_suspended
  (w : W) (info : PATInfo) (s' : Run W) (a : Attempt W) (err : Error) :
  NoDup (keys env) ->
  probe_all (start w) = (Normal info, s') ->
  In a (attempts s') ->
  attempt_result a = Throw err ->
  (errorMessage err = Some "bad credentials" ->
     get (attempt_pat a) (details info) = Some Expired_detail /\
     In (attempt_pat a) (expiredPATs info) /\
     ~ In (attempt_pat a) (exhaustedPATs info)) /\
  (errorMessage err = Some "sorry. your account was suspended." ->
     get (attempt_pat a) (details info) = Some Suspended_detail /\
     In (attempt_pat a) (suspendedPATs info) /\
     ~ In (attempt_pat a) (exhaustedPATs info)).
Proof.
  intros Hnd Hrun Hin Hres.
  destruct (getPATInfo_report _ _ _ _ _ _ _ Hnd Hrun)
    as (unsorted & Hk & Hd & _ & Hexp & Hexh & Hsus & _ & _ & _ & Hall).
  rewrite Forall_forall in Hall. destruct (Hall a Hin) as (x & Hx & Hrec).
  rewrite Hd, Hexp, Hexh, Hsus, (@report_lookup env unsorted Hnd Hk).
  assert (Hnot : status x <> "exhausted" ->
                 ~ In (attempt_pat a) (filterPATsByStatus unsorted "exhausted")).
  { intros Hne Hin'. apply In_filterPATsByStatus in Hin'.
    destruct Hin' as (d & Hd' & Hs). congruence. }
  split; intros Hmsg;
    inversion Hrec as [e He Hb|e He Hb Hs| | |]; subst; try congruence;
    rewrite Hres in He; injection He as <-; rewrite Hmsg in *;
    try discriminate;
    (split; [assumption|split;
              [apply In_filterPATsByStatus; eauto
              |apply Hnot; discriminate]]).
Qed.

(** C5, as the code has it.  In the report of a completed probe the keys
    of [details] are the configured credentials in ascending order of
    their code units; each of the five lists holds the credentials of its
    status in the order in which the pool enumerates them. *)
Theorem report_order (w : W) (info : PATInfo) (s' : Run W) :
  NoDup (keys env) ->
  probe_all (start w) = (Normal info, s') ->
  StronglySorted (fun x y => String.leb x y = true) (keys (details info)) /\
  Permutation (getAllPATs env) (keys (details info)) /\
  validPATs info
    = filter (has_status (details info) "valid") (getAllPATs env) /\
  expiredPATs info
    = filter (has_status (details info) "expired") (getAllPATs env) /\
  exhaustedPATs info
    = filter (has_status (details info) "exhausted") (getAllPATs env) /\
  suspendedPATs info
    = filter (has_status (details info) "suspended") (getAllPATs env) /\
  errorPATs info
    = filter (has_status (details info) "error") (getAllPATs env).
Proof.
  intros Hnd Hrun.
  destruct (getPATInfo_report _ _ _ _ _ _ _ Hnd Hrun)
    as (unsorted & Hk & Hd & Hv & Hexp & Hexh & Hsus & Herr & _).
  assert (Hnd' : NoDup (keys unsorted))
    by (rewrite Hk; now apply NoDup_getAllPATs).
  assert (Hsame : forall st,
             filterPATsByStatus unsorted st
             = filter (has_status (details info) st) (getAllPATs env)).
  { intros st. unfold filterPATsByStatus. rewrite Hk. apply filter_ext.
    intros pat. unfold has_status.
    now rewrite Hd, (@report_lookup env unsorted Hnd Hk). }
  rewrite Hv, Hexp, Hexh, Hsus, Herr, !Hsame.
  rewrite Hd, keys_sortedDetails, Hk by assumption.
  repeat split; auto.
  - apply sort_StronglySorted.
  - apply StringSort.Permuted_sort.
Qed.

End StatusProber.

Section Exhausted.
Import PatInfo.

Variable W : Type.
Variable Date_now : W -> Z.
Variable Date_parse : string -> Date.
Variable fetcher : Fetcher W.
Variable variables : AxiosRequestHeaders.
Variable env : Env.

Let probe_all :=
  getPATInfo Date_now Date_parse dateDiff_minutes fetcher variables env.

Lemma errorType_hasErrors (response : AxiosResponse) (kind : string) :
  strict_eq (errorType response) kind = true -> hasErrors response = true.
Proof.
  unfold errorType, hasErrors.
  destruct (errors (response_data response)) as [[|e rest]|]; simpl; congruence.
Qed.

(** C4, as the code has it.  In a completed probe, a credential whose
    call returned a response is reported as exhausted exactly when the
    first error of the payload has the rate-limiting type, or the payload
    has no errors and its remaining quota is zero.  Its detail then has
    remaining 0, and where the reset timestamp is a valid date, [resetIn]
    is the number of minutes from the current time to it, truncated to an
    integer, followed by the word minutes. *)
Theorem exhausted_classification
  (w : W) (info : PATInfo) (s' : Run W) (a : Attempt W)
  (response : AxiosResponse) :
  NoDup (keys env) ->
  probe_all (start w) = (Normal info, s') ->
  In a (attempts s') ->
  attempt_result a = Normal response ->
  (In (attempt_pat a) (exhaustedPATs info) <->
     strict_eq (errorType response) "RATE_LIMITED" = true \/
     (hasErrors response = false /\ remaining_is_zero response = true)) /\
  (In (attempt_pat a) (exhaustedPATs info) ->
     exists resetIn : string,
       get (attempt_pat a) (details info) = Some (Exhausted_detail resetIn) /\
       detail_remaining (Exhausted_detail resetIn) = Some 0%Z /\
       forall t : Z,
         new_Date Date_parse (resetAt_of response) = Some t ->
         resetIn =
           Number_toString
             (Some (Z.quot (t - Date_now (attempt_after a)) 60000))
           ++ " minutes").
Proof.
  intros Hnd Hrun Hin Hres.
  destruct (getPATInfo_report _ _ _ _ _ _ _ Hnd Hrun)
    as (unsorted & Hk & Hd & _ & _ & Hexh & _ & _ & _ & _ & Hall).
  rewrite Forall_forall in Hall. destruct (Hall a Hin) as (x & Hx & Hrec).
  rewrite Hd, Hexh, (@report_lookup env unsorted Hnd Hk).
  assert (Hiff : In (attempt_pat a) (filterPATsByStatus unsorted "exhausted")
                 <-> status x = "exhausted").
  { rewrite In_filterPATsByStatus. split.
    - intros (d & Hd' & Hs). congruence.
    - intros Hs. eauto. }
  rewrite Hiff. clear Hiff.
  inversion Hrec as [e He|e He|r e rest Hr Herrs Hty|r Hr Hother Hrl
                    |r rl Hr Hother Hrl Hrate]; subst; try congruence;
    rewrite Hres in Hr; injection Hr as <-.
  - (* an error of another type *)
    split.
    + split; [discriminate|].
      unfold errorType, hasErrors. rewrite Herrs.
      intros [H|[H _]]; congruence.
    + discriminate.
  - (* exhausted *)
    split.
    + split; [intros _|reflexivity].
      unfold isRateLimited in Hrl.
      destruct (hasErrors response); simpl in *.
      * left. now apply negb_false_iff in Hother.
      * right. auto.
    + intros _. eexists. split; [exact Hx|]. split; [reflexivity|].
      intros t Ht. rewrite Ht. reflexivity.
  - (* valid *)
    split.
    + split; [discriminate|].
      unfold isRateLimited in Hrl. apply orb_false_iff in Hrl.
      destruct Hrl as [Hrl Hzero].
      intros [H|[_ H]]; [|congruence].
      rewrite (errorType_hasErrors _ _ H), H in Hrl. discriminate.
    + discriminate.
Qed.

End Exhausted.

Section PatInfoFunction.
Import PatInfo.

Variable W : Type.
Variable Date_now : W -> Z.
Variable Date_parse : string -> Date.
Variable dateDiff : Date -> Date -> Number.
Variable request : RequestData -> JsObject string -> M Error W AxiosResponse.
Variable env : Env.

Let probe_all :=
  getPATInfo Date_now Date_parse dateDiff (uptimeFetcher request) [] env.
Let serve := PatInfo.handler Date_now Date_parse dateDiff request env.

(** The two ways the function answers. *)
Lemma handler_cases (s : Run W) :
  match probe_all s with
  | (Normal info, s') =>
      serve s =
      (Normal {| statusCode := 200;
                 headers := [("Content-Type", "application/json");
                             ("Cache-Control", "max-age=0, s-maxage=300")];
                 body := Json.stringify (PATInfo_toJson info) 2 |}, s')
  | (Throw err, s') =>
      serve s =
      (Normal {| statusCode := 500;
                 headers := [("Content-Type", "text/plain");
                             ("Cache-Control", "no-store")];
                 body := "Something went wrong: " ++ message err |}, s')
  end.
Proof.
  unfold serve, probe_all, PatInfo.handler, try_catch, bind.
  destruct (getPATInfo Date_now Date_parse dateDiff (uptimeFetcher request)
              [] env s) as [[info|err] s']; reflexivity.
Qed.

(** C2.  When a call of the fetcher throws an error that is neither the
    bad-credentials nor the account-suspended rejection, the probe throws
    that very error, no further call is made, and the function answers
    with status 500. *)
Theorem unrecognized_failure_aborts_probe
  (w : W) (a : Attempt W) (err : Error) :
  In a (attempts (snd (probe_all (start w)))) ->
  attempt_result a = Throw err ->
  unrecognized err ->
  fst (probe_all (start w)) = Throw err /\
  (exists before,
      attempts (snd (probe_all (start w))) = (before ++ [a])%list) /\
  serve (start w) =
    (Normal {| statusCode := 500;
               headers := [("Content-Type", "text/plain");
                           ("Cache-Control", "no-store")];
               body := "Something went wrong: " ++ message err |},
     snd (probe_all (start w))).
Proof.
  intros Hin Hres Hun.
  destruct (getPATInfo_aborts Date_now Date_parse dateDiff
              (uptimeFetcher request) [] env (start w) a eq_refl
              Hin Hres Hun) as (Hthrow & Hlast).
  repeat split; auto.
  pose proof (handler_cases (start w)) as Hcases.
  fold probe_all in Hthrow.
  destruct (probe_all (start w)) as [[info|e] s']; simpl in *;
    [discriminate|].
  injection Hthrow as ->. exact Hcases.
Qed.

End PatInfoFunction.

(* ===================================================================== *)
(** * The Uptime Reporter: the claims *)
(* ===================================================================== *)

Section UptimeReporter.
Import Uptime.

Variable S : Type.
Variable request : RequestData -> JsObject string -> M Error S AxiosResponse.
Variable retryer : Fetcher S -> AxiosRequestHeaders -> M Error S AxiosResponse.

Let check := retryer (uptimeFetcher request) [].
Let serve := Uptime.handler request retryer.

(** The answer of the function in terms of how the retryer call ended. *)
Lemma uptime_handler_run (event : Event) (s : S) :
  let up := match fst (check s) with Normal _ => true | Throw _ => false end in
  let type := requested_type event in
  serve event s =
  (Normal
     {| statusCode := 200;
        headers :=
          [("Content-Type",
            if String.eqb type "shields" || String.eqb type "json"
            then "application/json" else "text/plain");
           ("Cache-Control",
            if up then "max-age=0, s-maxage=300" else "no-store")];
        body :=
          if String.eqb type "shields"
          then Json.stringify (ShieldsResponse_toJson (shieldsUptimeBadge up)) 0
          else if String.eqb type "json"
          then Json.stringify (Json.Obj [("up", Some (Json.Bool up))]) 0
          else Boolean_toString up |},
   snd (check s)).
Proof.
  unfold serve, check, Uptime.handler, try_catch, bind.
  destruct (retryer (uptimeFetcher request) [] s) as [[r|e] s']; simpl;
    destruct (String.eqb (requested_type event) "shields");
    [| destruct (String.eqb (requested_type event) "json")
     | | destruct (String.eqb (requested_type event) "json")];
    reflexivity.
Qed.

(** C7.  Whatever error the retryer call throws, the function neither
    throws nor answers with an internal error: it completes with a
    response that reports down in the requested shape. *)
Theorem retryer_failure_is_reported_as_down
  (event : Event) (s s' : S) (e : Error) :
  check s = (Throw e, s') ->
  exists response : HandlerResponse,
    serve event s = (Normal response, s') /\
    statusCode response <> 500%Z /\
    body response =
      if String.eqb (requested_type event) "shields"
      then Json.stringify (ShieldsResponse_toJson (shieldsUptimeBadge false)) 0
      else if String.eqb (requested_type event) "json"
      then Json.stringify (Json.Obj [("up", Some (Json.Bool false))]) 0
      else "false".
Proof.
  intros Hcheck. pose proof (uptime_handler_run event s) as Hrun.
  rewrite Hcheck in Hrun. simpl in Hrun.
  eexists. split; [exact Hrun|]. simpl. split; [discriminate|reflexivity].
Qed.

(** C10.  When the retryer call throws, the function answers with status
    200, the content type and the body of the requested shape; and no run
    of the function answers with status 500, nothing but the retryer call
    being able to throw inside the outer [try]. *)
Theorem down_is_reported_with_status_200
  (event : Event) (s s' : S) (e : Error) :
  check s = (Throw e, s') ->
  (exists response : HandlerResponse,
      serve event s = (Normal response, s') /\
      statusCode response = 200%Z /\
      get "Cache-Control" (headers response) = Some "no-store" /\
      (requested_type event = "shields" ->
         get "Content-Type" (headers response) = Some "application/json" /\
         body response =
           Json.stringify
             (ShieldsResponse_toJson (shieldsUptimeBadge false)) 0) /\
      (requested_type event = "json" ->
         get "Content-Type" (headers response) = Some "application/json" /\
         body response =
           Json.stringify (Json.Obj [("up", Some (Json.Bool false))]) 0) /\
      (requested_type event <> "shields" ->
       requested_type event <> "json" ->
         get "Content-Type" (headers response) = Some "text/plain" /\
         body response = "false")) /\
  (forall (event0 : Event) (s0 : S),
      exists response s1,
        serve event0 s0 = (Normal response, s1) /\
        statusCode response = 200%Z).
Proof.
  intros Hcheck. split.
  - pose proof (uptime_handler_run event s) as Hrun.
    rewrite Hcheck in Hrun. simpl in Hrun.
    eexists. split; [exact Hrun|]. simpl.
    split; [reflexivity|]. split; [reflexivity|].
    split; [|split].
    + intros ->. split; reflexivity.
    + intros ->. split; reflexivity.
    + intros Hshields Hjson.
      apply String.eqb_neq in Hshields, Hjson.
      rewrite Hshields, Hjson. split; reflexivity.
  - intros event0 s0. do 2 eexists.
    split; [apply uptime_handler_run|reflexivity].
Qed.

End UptimeReporter.

(** C8.  For either input the badge has schema version 1 and the fixed
    label; it reads up in bright green for [true] and down in red for
    [false]; and its error flag is [false] in both cases, so it is never
    raised merely because the instance is down. *)
Theorem shieldsUptimeBadge_spec (up : bool) :
  Uptime.shieldsUptimeBadge up =
  {| Uptime.schemaVersion := 1;
     Uptime.label := "Public Instance";
     Uptime.badge_message := if up then "up" else "down";
     Uptime.color := if up then "brightgreen" else "red";
     Uptime.isError := false |}.
Proof. destruct up; reflexivity. Qed.

(** C9, as the code has it.  The PAT-info function caches for five
    minutes ([s-maxage=300]) exactly when the probe completes, which is
    its answer with status 200, and forbids caching exactly when the probe
    throws, which is its answer with status 500.  The uptime function
    always answers with status 200: it caches for five minutes exactly
    when the retryer call succeeds, and forbids caching whenever that call
    throws, that is, on its down answer. *)
Theorem cache_control_policy :
  (forall (W : Type) (Date_now : W -> Z) (Date_parse : string -> Date)
          (dateDiff : Date -> Date -> Number)
          (request : RequestData -> JsObject string -> M Error W AxiosResponse)
          (env : Env) (s : PatInfo.Run W),
      exists response s',
        PatInfo.handler Date_now Date_parse dateDiff request env s
          = (Normal response, s') /\
        match fst (PatInfo.getPATInfo Date_now Date_parse dateDiff
                     (PatInfo.uptimeFetcher request) [] env s) with
        | Normal _ =>
            statusCode response = 200%Z /\
            get "Cache-Control" (headers response)
              = Some "max-age=0, s-maxage=300"
        | Throw _ =>
            statusCode response = 500%Z /\
            get "Cache-Control" (headers response) = Some "no-store"
        end) /\
  (forall (S : Type)
          (request : RequestData -> JsObject string -> M Error S AxiosResponse)
          (retryer : Fetcher S -> AxiosRequestHeaders
                     -> M Error S AxiosResponse)
          (event : Uptime.Event) (s : S),
      exists response s',
        Uptime.handler request retryer event s = (Normal response, s') /\
        statusCode response = 200%Z /\
        match fst (retryer (Uptime.uptimeFetcher request) [] s) with
        | Normal _ =>
            get "Cache-Control" (headers response)
              = Some "max-age=0, s-maxage=300"
        | Throw _ =>
            get "Cache-Control" (headers response) = Some "no-store"
        end).
Proof.
  split.
  - intros W Date_now Date_parse dateDiff request env s.
    pose proof (handler_cases Date_now Date_parse dateDiff request env s)
      as Hcases.
    destruct (PatInfo.getPATInfo Date_now Date_parse dateDiff
                (PatInfo.uptimeFetcher request) [] env s)
      as [[info|err] s']; do 2 eexists; (split; [exact Hcases|]);
      simpl; split; reflexivity.
  - intros S request retryer event s.
    pose proof (uptime_handler_run request retryer event s) as Hrun.
    simpl in Hrun. do 2 eexists. split; [exact Hrun|]. simpl.
    split; [reflexivity|].
    destruct (fst (retryer (Uptime.uptimeFetcher request) [] s));
      reflexivity.
Qed.

(* ===================================================================== *)
(** * The Retryer: the claim *)
(* ===================================================================== *)

Section RetryerFacts.
Import Retryer.

Variable W : Type.
Variable Variables : Type.
Variable operation : Operation W Variables.
Variable variables : Variables.

Lemma rotation_Permutation {A : Type} (cursor : nat) (l : list A) :
  Permutation (rotation cursor l) l.
Proof.
  unfold rotation.
  etransitivity; [apply Permutation_app_comm|].
  now rewrite firstn_skipn.
Qed.

Lemma rotation_nil {A : Type} (cursor : nat) : rotation cursor (@nil A) = [].
Proof.
  apply Permutation_nil. symmetry. apply rotation_Permutation.
Qed.

(** Identifiers that are distinct in the pool are distinct among the
    eligible credentials. *)
Lemma eligible_identifiers_distinct (members : list Credential) :
  NoDup (map identifier members) ->
  NoDup (map identifier (filter is_eligible members)).
Proof.
  induction members as [|c members IH]; simpl; intros Hdistinct;
    [assumption|].
  apply NoDup_cons_iff in Hdistinct. destruct Hdistinct as [Hc Hrest].
  destruct (is_eligible c); simpl; [|now apply IH].
  apply NoDup_cons; [|now apply IH].
  intros Hin. apply Hc.
  apply in_map_iff in Hin. destruct Hin as (c' & Hid & Hin).
  apply filter_In in Hin. apply in_map_iff. exists c'. tauto.
Qed.

(** Candidates whose attempts all classify as rate-limited are attempted
    one after the other, each once, and then the pool is exhausted. *)
Lemma attempt_in_turn_rate_limited (candidates : list Credential) :
  (forall c, In c candidates -> forall w, exists detail,
        classify (fst (operation variables (secret c) w))
        = categorised (failure Rate_limited detail)) ->
  forall (last : option (Category * Status)) (s : State W),
  exists last' s',
    attempt_in_turn operation variables candidates last s
      = (Throw (PoolExhausted last'), s') /\
    attempted s' = (attempted s ++ map identifier candidates)%list /\
    (candidates = [] -> last' = last /\ s' = s) /\
    (candidates <> [] -> exists detail, last' = Some (Rate_limited, detail)).
Proof.
  induction candidates as [|c rest IH]; intros Hall last s.
  - exists last, s. simpl. rewrite app_nil_r.
    repeat split; auto. congruence.
  - simpl. unfold bind, run_operation.
    destruct (Hall c (or_introl eq_refl) (world s)) as (detail & Hclass).
    destruct (operation variables (secret c) (world s)) as [raw w'].
    simpl in Hclass. rewrite Hclass. unfold update_status at 1.
    match goal with
    | |- context [attempt_in_turn _ _ rest ?l ?st] =>
        destruct (IH (fun c' H => Hall c' (or_intror H)) l st)
          as (last' & s' & Hrun & Hatt & Hnil & Hcons)
    end.
    exists last', s'. simpl in *. rewrite Hrun.
    repeat split; auto.
    + now rewrite Hatt, <- app_assoc.
    + discriminate.
    + discriminate.
    + intros _. destruct rest as [|c' rest'].
      * destruct (Hnil eq_refl) as [-> _]. eauto.
      * apply Hcons. discriminate.
Qed.


End RetryerFacts.

(* ===================================================================== *)
(** * The claims on sample runs *)
(* ===================================================================== *)

Ltac distinct_strings :=
  repeat (constructor; [simpl; intuition congruence|]); constructor.

Ltac in_list := vm_compute; repeat first [left; reflexivity | right].

Section SampleRuns.
Import PatInfo Samples.

Lemma getPATInfo_probes_every_credential_witness :
  attempts (snd (run env_mixed))
    = fetcher_trace network [] env_mixed (getAllPATs env_mixed) tt /\
  world (snd (run env_mixed))
    = world_after tt (attempts (snd (run env_mixed))) /\
  map (@attempt_pat unit) (attempts (snd (run env_mixed)))
    = getAllPATs env_mixed /\
  map (@attempt_token unit) (attempts (snd (run env_mixed)))
    = map (fun pat => get pat env_mixed) (getAllPATs env_mixed) /\
  NoDup (keys (details (report env_mixed))) /\
  (forall pat,
      In pat (keys (details (report env_mixed)))
      <-> In pat (getAllPATs env_mixed)) /\
  List.length (details (report env_mixed))
    = List.length (getAllPATs env_mixed).
Proof.
  apply (@getPATInfo_probes_every_credential unit clock parse
           dateDiff_minutes network [] env_mixed tt).
  - distinct_strings.
  - vm_compute. reflexivity.
Defined.

Lemma unrecognized_failure_aborts_probe_witness :
  fst (run env_offline) = Throw network_error /\
  (exists before,
      attempts (snd (run env_offline)) = (before ++ [offline_call])%list) /\
  PatInfo.handler clock parse dateDiff_minutes wire env_offline (start tt) =
    (Normal {| statusCode := 500;
               headers := [("Content-Type", "text/plain");
                           ("Cache-Control", "no-store")];
               body := "Something went wrong: " ++ message network_error |},
     snd (run env_offline)).
Proof.
  apply (@unrecognized_failure_aborts_probe unit clock parse
           dateDiff_minutes wire env_offline tt offline_call network_error).
  - in_list.
  - reflexivity.
  - split; vm_compute; reflexivity.
Defined.

Lemma rejected_credential_is_expired_or_suspended_witness :
  (get "PAT_1" (details (report env_mixed)) = Some Expired_detail /\
   In "PAT_1" (expiredPATs (report env_mixed)) /\
   ~ In "PAT_1" (exhaustedPATs (report env_mixed))) /\
  (get "PAT_4" (details (report env_mixed)) = Some Suspended_detail /\
   In "PAT_4" (suspendedPATs (report env_mixed)) /\
   ~ In "PAT_4" (exhaustedPATs (report env_mixed))).
Proof.
  assert (Hnd : NoDup (keys env_mixed)) by distinct_strings.
  assert (Hrun : run env_mixed
                 = (Normal (report env_mixed), snd (run env_mixed)))
    by (vm_compute; reflexivity).
  split.
  - apply (proj1
      (@rejected_credential_is_expired_or_suspended unit clock parse
         dateDiff_minutes network [] env_mixed tt _ _
         bad_credentials_call (rejection "401" "Bad credentials")
         Hnd Hrun ltac:(in_list) eq_refl)).
    vm_compute. reflexivity.
  - apply (proj2
      (@rejected_credential_is_expired_or_suspended unit clock parse
         dateDiff_minutes network [] env_mixed tt _ _
         suspended_call
         (rejection "403" "Sorry. Your account was suspended.")
         Hnd Hrun ltac:(in_list) eq_refl)).
    vm_compute. reflexivity.
Defined.

Lemma exhausted_classification_witness :
  (In "PAT_10" (exhaustedPATs (report env_mixed)) <->
     strict_eq (errorType (quota 0)) "RATE_LIMITED" = true \/
     (hasErrors (quota 0) = false /\ remaining_is_zero (quota 0) = true)) /\
  (In "PAT_10" (exhaustedPATs (report env_mixed)) ->
     exists resetIn : string,
       get "PAT_10" (details (report env_mixed))
         = Some (Exhausted_detail resetIn) /\
       detail_remaining (Exhausted_detail resetIn) = Some 0%Z /\
       forall t : Z,
         new_Date parse (resetAt_of (quota 0)) = Some t ->
         resetIn =
           Number_toString (Some (Z.quot (t - clock tt) 60000))
           ++ " minutes").
Proof.
  apply (@exhausted_classification unit clock parse network []
           env_mixed tt (report env_mixed) (snd (run env_mixed))
           no_quota_call (quota 0)).
  - distinct_strings.
  - vm_compute. reflexivity.
  - in_list.
  - reflexivity.
Defined.

(** The sample clock stands 600999 milliseconds before the reset. *)
Example exhausted_detail_of_sample_run :
  get "PAT_10" (details (report env_mixed))
    = Some (Exhausted_detail "10 minutes") /\
  get "PAT_3" (details (report env_mixed))
    = Some (Exhausted_detail "NaN minutes").
Proof. split; vm_compute; reflexivity. Qed.

(** C4 as stated fails: a payload whose remaining quota is zero but whose
    first error is of another type is reported as an error, not as
    exhausted. *)
Lemma zero_quota_next_to_other_error_is_not_exhausted :
  fst (run env_odd) = Normal (report env_odd) /\
  map (@attempt_result unit) (attempts (snd (run env_odd)))
    = [Normal not_found_and_no_quota] /\
  errorPATs (report env_odd) = ["PAT_1"] /\
  ~ (In "PAT_1" (exhaustedPATs (report env_odd)) <->
       strict_eq (errorType not_found_and_no_quota) "RATE_LIMITED" = true \/
       remaining_is_zero not_found_and_no_quota = true).
Proof.
  repeat split; try (vm_compute; reflexivity).
  intros [_ Hclaim].
  assert (Hin : In "PAT_1" (exhaustedPATs (report env_odd)))
    by (apply Hclaim; right; reflexivity).
  vm_compute in Hin. exact Hin.
Qed.

Lemma report_order_witness :
  StronglySorted (fun x y => String.leb x y = true)
    (keys (details (report env_mixed))) /\
  Permutation (getAllPATs env_mixed) (keys (details (report env_mixed))) /\
  validPATs (report env_mixed)
    = filter (has_status (details (report env_mixed)) "valid")
        (getAllPATs env_mixed) /\
  expiredPATs (report env_mixed)
    = filter (has_status (details (report env_mixed)) "expired")
        (getAllPATs env_mixed) /\
  exhaustedPATs (report env_mixed)
    = filter (has_status (details (report env_mixed)) "exhausted")
        (getAllPATs env_mixed) /\
  suspendedPATs (report env_mixed)
    = filter (has_status (details (report env_mixed)) "suspended")
        (getAllPATs env_mixed) /\
  errorPATs (report env_mixed)
    = filter (has_status (details (report env_mixed)) "error")
        (getAllPATs env_mixed).
Proof.
  apply (@report_order unit clock parse dateDiff_minutes network []
           env_mixed tt (report env_mixed) (snd (run env_mixed))).
  - distinct_strings.
  - vm_compute. reflexivity.
Defined.

(** C5 as stated fails: the lists follow the order of the pool, so a pool
    that is not enumerated in the order of the names gives lists that are
    not in that order either. *)
Lemma pool_order_shows_in_the_lists :
  fst (run env_unordered) = Normal (report env_unordered) /\
  validPATs (report env_unordered) = ["PAT_2"; "PAT_1"] /\
  keys (details (report env_unordered)) = ["PAT_1"; "PAT_2"] /\
  ~ Sorted (fun x y => String.leb x y = true)
      (validPATs (report env_unordered)).
Proof.
  repeat split; try (vm_compute; reflexivity).
  intros Hsorted. vm_compute in Hsorted.
  inversion Hsorted as [|? ? _ Hhd]; subst.
  inversion Hhd as [|? ? Hle]; subst.
  vm_compute in Hle. discriminate.
Qed.

End SampleRuns.

Section SampleAnswers.
Import Uptime Samples.

Lemma retryer_failure_is_reported_as_down_witness :
  exists response : HandlerResponse,
    Uptime.handler wire failing_retryer shields_event tt
      = (Normal response, tt) /\
    statusCode response <> 500%Z /\
    body response =
      if String.eqb (requested_type shields_event) "shields"
      then Json.stringify (ShieldsResponse_toJson (shieldsUptimeBadge false)) 0
      else if String.eqb (requested_type shields_event) "json"
      then Json.stringify (Json.Obj [("up", Some (Json.Bool false))]) 0
      else "false".
Proof.
  apply (@retryer_failure_is_reported_as_down unit wire failing_retryer
           shields_event tt tt no_tokens).
  reflexivity.
Defined.

Lemma down_is_reported_with_status_200_witness :
  exists response : HandlerResponse,
    Uptime.handler wire failing_retryer plain_event tt
      = (Normal response, tt) /\
    statusCode response = 200%Z /\
    get "Content-Type" (headers response) = Some "text/plain" /\
    body response = "false".
Proof.
  destruct (@down_is_reported_with_status_200 unit wire failing_retryer
              plain_event tt tt no_tokens eq_refl)
    as ((response & Hrun & Hstatus & _ & _ & _ & Hplain) & _).
  exists response. split; [exact Hrun|]. split; [exact Hstatus|].
  apply Hplain; vm_compute; discriminate.
Defined.

(** C9 as stated fails for the uptime function: its down answer is
    produced normally, with status 200, and yet forbids caching. *)
Lemma down_answer_forbids_caching :
  Uptime.handler wire failing_retryer plain_event tt
  = (Normal {| statusCode := 200;
               headers := [("Content-Type", "text/plain");
                           ("Cache-Control", "no-store")];
               body := "false" |}, tt).
Proof. vm_compute. reflexivity. Qed.

End SampleAnswers.

Section SampleCalls.
Import Retryer Samples.


End SampleCalls.

(* ===================================================================== *)
(** * The Status Prober: further properties *)
(* ===================================================================== *)

Section PatternFacts.
Import PatInfo.

(** The pattern at the start of a key: the four characters, then digits
    to the end. *)
Lemma match_here_spec (s : string) :
  match_here s = true <->
  exists digits, s = "PAT_" ++ digits /\ all_digits digits = true.
Proof.
  split.
  - intros H.
    destruct s as [|c1 s]; [discriminate|].
    destruct c1 as [[] [] [] [] [] [] [] []]; try discriminate.
    destruct s as [|c2 s]; [discriminate|].
    destruct c2 as [[] [] [] [] [] [] [] []]; try discriminate.
    destruct s as [|c3 s]; [discriminate|].
    destruct c3 as [[] [] [] [] [] [] [] []]; try discriminate.
    destruct s as [|c4 s]; [discriminate|].
    destruct c4 as [[] [] [] [] [] [] [] []]; try discriminate.
    exists s. split; [reflexivity|exact H].
  - intros (digits & -> & H). exact H.
Qed.

(** X1.  A key of the environment counts as a credential exactly when it
    ends in [PAT_] followed by decimal digits, possibly none; what stands
    before [PAT_] is not looked at. *)
Theorem exec_PAT_spec (key : string) :
  exec_PAT key = true <->
  exists before digits,
    key = before ++ "PAT_" ++ digits /\ all_digits digits = true.
Proof.
  induction key as [|c key IH].
  - split; [discriminate|].
    intros (before & digits & H & _).
    destruct before; discriminate.
  - cbn [exec_PAT]. rewrite orb_true_iff, match_here_spec, IH. split.
    + intros [(digits & -> & H)|(before & digits & -> & H)].
      * exists "", digits. auto.
      * exists (String c before), digits. auto.
    + intros (before & digits & Hkey & H).
      destruct before as [|c' before].
      * left. exists digits. auto.
      * right. injection Hkey as <- ->. exists before, digits. auto.
Qed.

End PatternFacts.

Section TraceFacts.
Import PatInfo Outcome.

Variable W : Type.
Variable Date_now : W -> Z.
Variable Date_parse : string -> Date.
Variable dateDiff : Date -> Date -> Number.
Variable fetcher : Fetcher W.
Variable variables : AxiosRequestHeaders.
Variable env : Env.

Let pass := probe Date_now Date_parse dateDiff fetcher variables env.
Let probe_all := getPATInfo Date_now Date_parse dateDiff fetcher variables env.

Lemma probe_trace (pat : string) (details : JsObject Detail) (s : Run W) :
  exists a : Attempt W,
    attempts (snd (pass pat details s)) = (attempts s ++ [a])%list /\
    attempt_pat a = pat /\
    attempt_token a = get pat env /\
    ends_as (attempt_result a) (fst (pass pat details s)).
Proof.
  unfold pass, probe, try_catch, bind, await_fetcher, ends_as, classifiable,
    classifiable_response, unrecognized.
  destruct (fetcher variables (get pat env) (world s)) as [r w'].
  exists {| attempt_pat := pat; attempt_token := get pat env;
            attempt_result := r; attempt_after := w' |}.
  destruct r as [response|err]; simpl.
  - destruct (hasErrors response
              && negb (strict_eq (errorType response) "RATE_LIMITED")).
    + destruct (errors (response_data response)) as [[|e rest]|];
        simpl; repeat split; auto; discriminate.
    + destruct (isRateLimited response); simpl; [repeat split; auto|].
      unfold rateLimit_of.
      destruct (data (response_data response)) as [d|];
        [destruct (rateLimit d)|]; simpl; repeat split; auto; discriminate.
  - destruct (strict_eq (errorMessage err) "bad credentials");
      [simpl; repeat split; auto; intros [H _]; discriminate|].
    destruct (strict_eq (errorMessage err)
                "sorry. your account was suspended."); simpl;
      repeat split; auto; intros [_ H]; discriminate.
Qed.

(** The calls of a loop, whether it runs to its end or not: they follow
    the list of credentials without a gap, each with the token of its
    credential; all but a throwing last one ended classifiably. *)
Lemma for_of_probe_trace (pats : list string) :
  forall (details : JsObject Detail) (s : Run W),
  exists (l : list (Attempt W)) (rest : list string),
    attempts (snd (for_of pats pass details s)) = (attempts s ++ l)%list /\
    pats = (map (@attempt_pat W) l ++ rest)%list /\
    Forall (fun a => attempt_token a = get (attempt_pat a) env) l /\
    match fst (for_of pats pass details s) with
    | Normal _ =>
        rest = [] /\ Forall (fun a => classifiable (attempt_result a)) l
    | Throw e =>
        exists l0 a,
          l = (l0 ++ [a])%list /\
          Forall (fun a => classifiable (attempt_result a)) l0 /\
          ends_as (attempt_result a) (@Throw Error unit e)
    end.
Proof.
  induction pats as [|p pats IH]; intros details s.
  - exists [], []. simpl. rewrite app_nil_r. repeat split; auto.
  - simpl. unfold bind.
    destruct (probe_trace p details s) as (a & Hatt & Hpat & Htok & Hend).
    destruct (pass p details s) as [[d1|e] s1]; simpl in *.
    + destruct (IH d1 s1) as (l & rest & Hl & Hpats & Htoks & Hres).
      exists (a :: l), rest. simpl. repeat split.
      * now rewrite Hl, Hatt, <- app_assoc.
      * now rewrite Hpat, Hpats.
      * constructor; [congruence|assumption].
      * destruct (fst (for_of pats pass d1 s1)) as [d|e].
        -- destruct Hres as [-> Hall]. split; auto.
        -- destruct Hres as (l0 & a' & -> & Hall & Hlast).
           exists (a :: l0), a'. split; [reflexivity|]. split; auto.
    + exists [a], pats. simpl.
      split; [assumption|]. split; [now rewrite Hpat|].
      split; [constructor; [congruence|constructor]|].
      exists [], a. split; [reflexivity|]. split; [constructor|assumption].
Qed.

Lemma getPATInfo_trace (w : W) :
  exists rest : list string,
    getAllPATs env
      = (map (@attempt_pat W) (attempts (snd (probe_all (start w))))
         ++ rest)%list /\
    Forall (fun a => attempt_token a = get (attempt_pat a) env)
      (attempts (snd (probe_all (start w)))) /\
    match fst (probe_all (start w)) with
    | Normal _ =>
        rest = [] /\
        Forall (fun a => classifiable (attempt_result a))
          (attempts (snd (probe_all (start w))))
    | Throw e =>
        exists l0 a,
          attempts (snd (probe_all (start w))) = (l0 ++ [a])%list /\
          Forall (fun a => classifiable (attempt_result a)) l0 /\
          ends_as (attempt_result a) (@Throw Error unit e)
    end.
Proof.
  unfold probe_all, getPATInfo, bind.
  destruct (for_of_probe_trace (getAllPATs env) [] (start w))
    as (l & rest & Hl & Hpats & Htoks & Hres).
  fold pass.
  destruct (for_of (getAllPATs env) pass [] (start w)) as [[d|e] s1];
    simpl in *; subst l; exists rest; repeat split; auto;
    destruct Hres; auto.
Qed.

(** X2.  Whether the probe completes or aborts, the calls it has made
    are the applications of the fetcher itself along a first part of the
    pool, in order and without a gap: each is the fetcher applied to the
    value that the environment holds for its credential, never
    [undefined], in the world that the call before left, and holds the
    result and the world of that application; the world at the end is the
    one that the last call left; a completed probe has gone through the
    whole pool. *)
Theorem probe_calls_follow_pool (w : W) :
  exists made rest : list string,
    getAllPATs env = (made ++ rest)%list /\
    attempts (snd (probe_all (start w)))
      = fetcher_trace fetcher variables env made w /\
    world (snd (probe_all (start w)))
      = world_after w (attempts (snd (probe_all (start w)))) /\
    map (@attempt_pat W) (attempts (snd (probe_all (start w)))) = made /\
    Forall (fun a => exists token,
              attempt_token a = Some token /\
              get (attempt_pat a) env = Some token)
      (attempts (snd (probe_all (start w)))) /\
    (forall info, fst (probe_all (start w)) = Normal info -> rest = []).
Proof.
  destruct (@getPATInfo_calls_fetcher W Date_now Date_parse dateDiff
              fetcher variables env w)
    as (made & rest & Hmade & Hlog & Hworld & Hend).
  fold probe_all in Hlog, Hworld, Hend.
  assert (Hpats : map (@attempt_pat W) (attempts (snd (probe_all (start w))))
                  = made)
    by (rewrite Hlog; apply fetcher_trace_pats).
  destruct (getPATInfo_trace w) as (_ & _ & Htoks & _).
  exists made, rest.
  split; [exact Hmade|]. split; [exact Hlog|]. split; [exact Hworld|].
  split; [exact Hpats|]. split; [|exact Hend].
  rewrite Forall_forall in *. intros a Ha.
  assert (Hin : In (attempt_pat a) (getAllPATs env)).
  { rewrite Hmade, <- Hpats. apply in_or_app. left. now apply in_map. }
  apply filter_In in Hin. destruct Hin as [Hin _].
  destruct (In_get_Some _ _ Hin) as (token & Htoken).
  exists token. split; [|exact Htoken]. now rewrite Htoks.
Qed.

(** X7.  The probe completes exactly when every call it has made ended
    in a way that a pass can classify. *)
Theorem probe_completes_iff (w : W) :
  (exists info, fst (probe_all (start w)) = Normal info) <->
  Forall (fun a => classifiable (attempt_result a))
    (attempts (snd (probe_all (start w)))).
Proof.
  destruct (getPATInfo_trace w) as (rest & _ & _ & Hres).
  destruct (fst (probe_all (start w))) as [info|e].
  - split; [tauto|eauto].
  - destruct Hres as (l0 & a & -> & _ & Hlast & _). split.
    + intros (info & Hinfo). discriminate.
    + intros Hall. exfalso. apply Hlast.
      rewrite Forall_forall in Hall. apply Hall.
      apply in_or_app. right. now left.
Qed.

End TraceFacts.

Section ReportShape.
Import PatInfo.

Lemma has_status_lookup (details : JsObject Detail) (pat : string) (d : Detail) :
  get pat details = Some d ->
  forall st, has_status details st pat = String.eqb (status d) st.
Proof. intros H st. unfold has_status. now rewrite H. Qed.

(** The five filters split any list of keys of [details]. *)
Lemma five_lists_split (details : JsObject Detail) (l : list string) :
  (forall pat, In pat l -> In pat (keys details)) ->
  Permutation
    (filter (has_status details "valid") l
     ++ filter (has_status details "expired") l
     ++ filter (has_status details "exhausted") l
     ++ filter (has_status details "suspended") l
     ++ filter (has_status details "error") l)%list
    l.
Proof.
  induction l as [|pat l IH]; intros Hkeys; [constructor|].
  assert (IH' := IH (fun p H => Hkeys p (or_intror H))). clear IH.
  destruct (In_get_Some pat details (Hkeys pat (or_introl eq_refl)))
    as (d & Hd).
  cbn [filter]. rewrite !(@has_status_lookup _ _ _ Hd).
  set (A := filter (has_status details "valid") l) in *.
  set (B := filter (has_status details "expired") l) in *.
  set (C := filter (has_status details "exhausted") l) in *.
  set (D := filter (has_status details "suspended") l) in *.
  set (E := filter (has_status details "error") l) in *.
  destruct d; cbn [status String.eqb Ascii.eqb Bool.eqb andb].
  - (* error *)
    rewrite (app_assoc A B), (app_assoc (A ++ B) C),
      (app_assoc ((A ++ B) ++ C) D).
    symmetry. apply Permutation_cons_app. symmetry.
    now rewrite <- !app_assoc.
  - (* exhausted *)
    rewrite (app_assoc A B).
    symmetry. apply Permutation_cons_app. symmetry.
    now rewrite <- !app_assoc.
  - (* valid *)
    simpl. now constructor.
  - (* expired *)
    symmetry. apply Permutation_cons_app. now symmetry.
  - (* suspended *)
    rewrite (app_assoc A B), (app_assoc (A ++ B) C).
    symmetry. apply Permutation_cons_app. symmetry.
    now rewrite <- !app_assoc.
Qed.

Variable W : Type.
Variable Date_now : W -> Z.
Variable Date_parse : string -> Date.
Variable dateDiff : Date -> Date -> Number.
Variable fetcher : Fetcher W.
Variable variables : AxiosRequestHeaders.
Variable env : Env.

Let probe_all := getPATInfo Date_now Date_parse dateDiff fetcher variables env.

(** X3.  In the report of a completed probe every configured credential
    stands in exactly one of the five lists: put one after the other, the
    lists are a rearrangement of the pool, with no name twice. *)
Theorem lists_partition_the_pool (w : W) (info : PATInfo) (s' : Run W) :
  NoDup (keys env) ->
  probe_all (start w) = (Normal info, s') ->
  Permutation
    (validPATs info ++ expiredPATs info ++ exhaustedPATs info
     ++ suspendedPATs info ++ errorPATs info)%list
    (getAllPATs env) /\
  NoDup
    (validPATs info ++ expiredPATs info ++ exhaustedPATs info
     ++ suspendedPATs info ++ errorPATs info)%list.
Proof.
  intros Hnd Hrun.
  destruct (getPATInfo_report _ _ _ _ _ _ _ Hnd Hrun)
    as (unsorted & Hk & _ & Hv & Hexp & Hexh & Hsus & Herr & _).
  assert (Hperm :
    Permutation
      (validPATs info ++ expiredPATs info ++ exhaustedPATs info
       ++ suspendedPATs info ++ errorPATs info)%list
      (getAllPATs env)).
  { rewrite Hv, Hexp, Hexh, Hsus, Herr. unfold filterPATsByStatus.
    rewrite <- Hk. apply five_lists_split. auto. }
  split; [exact Hperm|].
  eapply Permutation_NoDup; [symmetry; exact Hperm|].
  now apply NoDup_getAllPATs.
Qed.

(** X4.  The lists and the details of a completed probe agree: a
    credential stands in a list exactly when its entry in [details] has
    the status of that list. *)
Theorem lists_agree_with_details
  (w : W) (info : PATInfo) (s' : Run W) (pat : string) :
  NoDup (keys env) ->
  probe_all (start w) = (Normal info, s') ->
  (In pat (validPATs info) <->
     exists d, get pat (details info) = Some d /\ status d = "valid") /\
  (In pat (expiredPATs info) <->
     exists d, get pat (details info) = Some d /\ status d = "expired") /\
  (In pat (exhaustedPATs info) <->
     exists d, get pat (details info) = Some d /\ status d = "exhausted") /\
  (In pat (suspendedPATs info) <->
     exists d, get pat (details info) = Some d /\ status d = "suspended") /\
  (In pat (errorPATs info) <->
     exists d, get pat (details info) = Some d /\ status d = "error").
Proof.
  intros Hnd Hrun.
  destruct (getPATInfo_report _ _ _ _ _ _ _ Hnd Hrun)
    as (unsorted & Hk & Hd & Hv & Hexp & Hexh & Hsus & Herr & _).
  rewrite Hd, Hv, Hexp, Hexh, Hsus, Herr,
    (@report_lookup env unsorted Hnd Hk).
  repeat split; apply In_filterPATsByStatus.
Qed.

(** What a completed probe holds for the credential of each call. *)
Lemma completed_probe_records
  (w : W) (info : PATInfo) (s' : Run W) (a : Attempt W) :
  NoDup (keys env) ->
  probe_all (start w) = (Normal info, s') ->
  In a (attempts s') ->
  exists x,
    get (attempt_pat a) (details info) = Some x /\
    Recorded Date_now Date_parse dateDiff a x /\
    (In (attempt_pat a) (validPATs info) <-> status x = "valid") /\
    (In (attempt_pat a) (errorPATs info) <-> status x = "error").
Proof.
  intros Hnd Hrun Hin.
  destruct (getPATInfo_report _ _ _ _ _ _ _ Hnd Hrun)
    as (unsorted & Hk & Hd & Hv & _ & _ & _ & Herr & _ & _ & Hall).
  rewrite Forall_forall in Hall. destruct (Hall a Hin) as (x & Hx & Hrec).
  exists x. rewrite Hd, Hv, Herr, (@report_lookup env unsorted Hnd Hk).
  split; [assumption|]. split; [assumption|].
  split; rewrite In_filterPATsByStatus; split;
    try (intros (d & Hd' & Hs); congruence); eauto.
Qed.

(** X5.  In a completed probe, a credential whose call returned a
    response is reported as valid exactly when the payload has no errors
    member and its remaining quota is not zero; its detail then carries
    the remaining quota of the payload as it came. *)
Theorem valid_classification
  (w : W) (info : PATInfo) (s' : Run W) (a : Attempt W)
  (response : AxiosResponse) :
  NoDup (keys env) ->
  probe_all (start w) = (Normal info, s') ->
  In a (attempts s') ->
  attempt_result a = Normal response ->
  (In (attempt_pat a) (validPATs info) <->
     hasErrors response = false /\ remaining_is_zero response = false) /\
  (In (attempt_pat a) (validPATs info) ->
     exists rl : RateLimit,
       rateLimit_of response = Some rl /\
       get (attempt_pat a) (details info) = Some (Valid_detail (remaining rl))).
Proof.
  intros Hnd Hrun Hin Hres.
  destruct (@completed_probe_records w info s' a Hnd Hrun Hin)
    as (x & Hx & Hrec & Hvalid & _).
  rewrite Hvalid. clear Hvalid.
  inversion Hrec as [e He|e He|r e rest Hr Herrs Hty|r Hr Hother Hrl
                    |r rl Hr Hother Hrl Hrate]; subst; try congruence;
    rewrite Hres in Hr; injection Hr as <-.
  - split; [|discriminate]. split; [discriminate|].
    unfold hasErrors. rewrite Herrs. intros [H _]. discriminate.
  - split; [|discriminate]. split; [discriminate|].
    unfold isRateLimited in Hrl. intros [Hno Hzero].
    rewrite Hno, Hzero in Hrl. discriminate.
  - split.
    + split; [intros _|reflexivity].
      unfold isRateLimited in Hrl. apply orb_false_iff in Hrl.
      destruct Hrl as [Hrl Hzero]. split; [|exact Hzero].
      destruct (hasErrors response); [|reflexivity].
      simpl in *. rewrite Hrl in Hother. discriminate.
    + intros _. exists rl. auto.
Qed.

(** X6.  In a completed probe, a credential whose call returned a
    response is reported as an error exactly when the payload has an
    errors member whose first entry is not of the rate-limiting type; its
    detail then carries the type and the message of that first entry as
    they came. *)
Theorem error_classification
  (w : W) (info : PATInfo) (s' : Run W) (a : Attempt W)
  (response : AxiosResponse) :
  NoDup (keys env) ->
  probe_all (start w) = (Normal info, s') ->
  In a (attempts s') ->
  attempt_result a = Normal response ->
  (In (attempt_pat a) (errorPATs info) <->
     hasErrors response = true /\
     strict_eq (errorType response) "RATE_LIMITED" = false) /\
  (In (attempt_pat a) (errorPATs info) ->
     exists (e : GraphQLError) (rest : list GraphQLError),
       errors (response_data response) = Some (e :: rest) /\
       get (attempt_pat a) (details info)
         = Some (Error_detail (type e) (error_message e))).
Proof.
  intros Hnd Hrun Hin Hres.
  destruct (@completed_probe_records w info s' a Hnd Hrun Hin)
    as (x & Hx & Hrec & _ & Herror).
  rewrite Herror. clear Herror.
  inversion Hrec as [e He|e He|r e rest Hr Herrs Hty|r Hr Hother Hrl
                    |r rl Hr Hother Hrl Hrate]; subst; try congruence;
    rewrite Hres in Hr; injection Hr as <-.
  - split.
    + split; [intros _|reflexivity].
      unfold hasErrors, errorType. rewrite Herrs. auto.
    + intros _. exists e, rest. auto.
  - split; [|discriminate]. split; [discriminate|].
    intros [Hyes Hty]. rewrite Hyes, Hty in Hother. discriminate.
  - split; [|discriminate]. split; [discriminate|].
    intros [Hyes Hty]. rewrite Hyes, Hty in Hother. discriminate.
Qed.

End ReportShape.

Section PatInfoAnswers.
Import PatInfo.

Variable W : Type.
Variable Date_now : W -> Z.
Variable Date_parse : string -> Date.
Variable dateDiff : Date -> Date -> Number.
Variable request : RequestData -> JsObject string -> M Error W AxiosResponse.
Variable env : Env.

Let probe_all :=
  getPATInfo Date_now Date_parse dateDiff (uptimeFetcher request) [] env.
Let serve := PatInfo.handler Date_now Date_parse dateDiff request env.

(** X8.  A response that a pass cannot classify (an empty [errors] array,
    or no rate-limit data where the payload is neither in error nor
    rate-limited) makes the probe throw a [TypeError] of its own: no
    further call is made and the function answers with status 500. *)
Theorem malformed_response_aborts_probe
  (w : W) (a : Attempt W) (response : AxiosResponse) :
  In a (attempts (snd (probe_all (start w)))) ->
  attempt_result a = Normal response ->
  classifiable_response response = false ->
  exists e : Error,
    fst (probe_all (start w)) = Throw e /\
    response_data_message e = None /\
    (exists before,
        attempts (snd (probe_all (start w))) = (before ++ [a])%list) /\
    serve (start w) =
      (Normal {| statusCode := 500;
                 headers := [("Content-Type", "text/plain");
                             ("Cache-Control", "no-store")];
                 body := "Something went wrong: " ++ message e |},
       snd (probe_all (start w))).
Proof.
  intros Hin Hres Hbad.
  destruct (getPATInfo_trace Date_now Date_parse dateDiff
              (uptimeFetcher request) [] env w) as (rest & _ & _ & Hend).
  pose proof (handler_cases Date_now Date_parse dateDiff request env
                (start w)) as Hcases.
  fold probe_all in Hend, Hcases. fold serve in Hcases.
  assert (Hnot : ~ classifiable (attempt_result a)).
  { rewrite Hres. simpl. congruence. }
  destruct (probe_all (start w)) as [[info|e] s']; simpl in *.
  - destruct Hend as [_ Hall]. rewrite Forall_forall in Hall.
    exfalso. auto.
  - destruct Hend as (l0 & a' & Hcalls & Hall & _ & Hlast).
    rewrite Forall_forall in Hall. rewrite Hcalls in Hin.
    apply in_app_or in Hin. destruct Hin as [Hin|[->|[]]].
    + exfalso. auto.
    + rewrite Hres in Hlast. exists e.
      split; [reflexivity|]. split; [exact Hlast|].
      split; [now exists l0|exact Hcases].
Qed.

(** X9.  With no credential configured the probe calls nothing, leaves
    the world as it is and reports five empty lists and empty details;
    the function answers with status 200 and the text of that report. *)
Theorem empty_pool_report (s : Run W) :
  getAllPATs env = [] ->
  probe_all s =
    (Normal {| validPATs := []; expiredPATs := []; exhaustedPATs := [];
               suspendedPATs := []; errorPATs := []; details := [] |}, s) /\
  serve s =
    (Normal {| statusCode := 200;
               headers := [("Content-Type", "application/json");
                           ("Cache-Control", "max-age=0, s-maxage=300")];
               body :=
                 Json.stringify
                   (PATInfo_toJson
                      {| validPATs := []; expiredPATs := [];
                         exhaustedPATs := []; suspendedPATs := [];
                         errorPATs := []; details := [] |}) 2 |}, s).
Proof.
  intros Hnone.
  assert (Hrun : probe_all s =
    (Normal {| validPATs := []; expiredPATs := []; exhaustedPATs := [];
               suspendedPATs := []; errorPATs := []; details := [] |}, s)).
  { unfold probe_all, getPATInfo. rewrite Hnone. reflexivity. }
  split; [exact Hrun|].
  pose proof (handler_cases Date_now Date_parse dateDiff request env s)
    as Hcases.
  fold probe_all in Hcases. fold serve in Hcases.
  rewrite Hrun in Hcases. exact Hcases.
Qed.

End PatInfoAnswers.

Section UptimeAnswers.
Import Uptime.

Variable S : Type.
Variable request : RequestData -> JsObject string -> M Error S AxiosResponse.
Variable retryer : Fetcher S -> AxiosRequestHeaders -> M Error S AxiosResponse.

Let check := retryer (uptimeFetcher request) [].
Let serve := Uptime.handler request retryer.

(** X10.  The uptime function reports up exactly when the retryer call
    completes normally: in each of the three shapes its body is the
    rendering of [true] in that case and in no other; the state it leaves
    is the one the retryer call left. *)
Theorem up_exactly_when_retryer_succeeds (event : Event) (s : S) :
  exists response : HandlerResponse,
    serve event s = (Normal response, snd (check s)) /\
    ((exists r, fst (check s) = Normal r) <->
     body response =
       if String.eqb (requested_type event) "shields"
       then Json.stringify (ShieldsResponse_toJson (shieldsUptimeBadge true)) 0
       else if String.eqb (requested_type event) "json"
       then Json.stringify (Json.Obj [("up", Some (Json.Bool true))]) 0
       else "true").
Proof.
  pose proof (uptime_handler_run request retryer event s) as Hrun.
  fold check in Hrun. fold serve in Hrun. simpl in Hrun.
  eexists. split; [exact Hrun|]. simpl.
  destruct (fst (check s)) as [r|e].
  - split; [reflexivity|eauto].
  - split; [intros (r & Hr); discriminate|].
    destruct (String.eqb (requested_type event) "shields");
      [|destruct (String.eqb (requested_type event) "json")];
      intros H; vm_compute in H; discriminate.
Qed.

End UptimeAnswers.

(* ===================================================================== *)
(** * The card functions: their answers *)
(* ===================================================================== *)

Section CacheFacts.
Import Card.

(** The environment's [CACHE_SECONDS] counts when it parses to an integer
    other than zero; absent, empty, without a leading number or zero, it
    leaves the value as it is. *)
Lemma environment_cache_seconds_spec (env : Env) (cacheSeconds : Number) :
  environment_cache_seconds env cacheSeconds =
  match parseInt_value (get "CACHE_SECONDS" env) with
  | Some n => if Z.eqb n 0 then cacheSeconds else Some n
  | None => cacheSeconds
  end.
Proof.
  unfold environment_cache_seconds, or_else, truthy.
  destruct (get "CACHE_SECONDS" env) as [[|c v]|]; try reflexivity.
  destruct (parseInt_value (Some (String c v))); reflexivity.
Qed.

End CacheFacts.

(** The routine parts of an answer: equations between literals and
    implications from an impossible case. *)
Ltac card_facts :=
  simpl;
  repeat match goal with
         | |- _ /\ _ => split
         | |- _ <-> _ => split
         | |- _ -> _ => intro
         | H : _ /\ _ |- _ => destruct H
         | H : _ \/ _ |- _ => destruct H
         end;
  try reflexivity; try assumption; try congruence;
  try solve [left; repeat split; congruence
            |right; repeat split; congruence].

(** An answer with status 200 or 500 in the shape the theorems state. *)
Ltac card_rendered :=
  do 2 eexists; split; [reflexivity|]; card_facts;
  left; split; [reflexivity|]; eauto.

Ltac card_failed err how :=
  do 2 eexists; split; [reflexivity|]; card_facts;
  right; split; [reflexivity|]; split; [reflexivity|];
  exists err; split; [reflexivity|]; how.

Ltac card_rejected := do 2 eexists; split; [reflexivity|]; card_facts.

Section WakatimeFacts.
Import Card Wakatime.

Variable S : Type.
Variable Stats : Type.
Variable Flag : Type.
Variable CONSTANTS : Constants.
Variable isLocaleAvailable : string -> bool.
Variable renderError : string -> option string -> ErrorOptions -> string.
Variable clampValue : Number -> Z -> Z -> Number.
Variable parseBoolean : option string -> Flag.
Variable parseArray : option string -> list string.
Variable fetchWakatimeStats :
  option string -> option string -> M Thrown S Stats.
Variable renderWakatimeCard :
  Stats -> Options Flag -> Completion Thrown string.

Let serve :=
  Wakatime.handler CONSTANTS isLocaleAvailable renderError clampValue
    parseBoolean parseArray fetchWakatimeStats renderWakatimeCard.

(** X11.  The WakaTime function never throws and always answers
    with the SVG content type.  It answers 400 exactly when a locale is
    given that is not available: then nothing is fetched and no
    [Cache-Control] is set.  Otherwise its only effect is the one fetch;
    it answers 200 with the rendered card, or 500, with the error
    [Cache-Control] and the error card of the thrown value, when the
    fetch or the renderer throws. *)
Theorem wakatime_answer (event : Event) (env : Env) (s : S) :
  let query := queryStringParameters event in
  let unsupported := unavailable isLocaleAvailable (get "locale" query) in
  let fetched := fetchWakatimeStats (get "username" query) (get "api_domain" query) s in
  exists response s',
    serve event env s = (Normal response, s') /\
    get "Content-Type" (headers response) = Some "image/svg+xml" /\
    statusCode response <> 403%Z /\
    (statusCode response = 400%Z <->
       unsupported = true) /\
    (unsupported = true ->
       s' = s /\ get "Cache-Control" (headers response) = None) /\
    (unsupported = false ->
       s' = snd fetched /\
       ((statusCode response = 200%Z /\
         exists stats options,
           fst fetched = Normal stats /\
           renderWakatimeCard stats options = Normal (body response)) \/
        (statusCode response = 500%Z /\
         get "Cache-Control" (headers response)
           = Some (error_cache_control CONSTANTS) /\
         exists err,
           body response
             = renderError (thrown_message err)
                 (thrown_secondaryMessage err) (error_options query) /\
           (fst fetched = Throw err \/
            exists stats options,
              fst fetched = Normal stats /\
              renderWakatimeCard stats options = Throw err)))).
Proof.
  cbv zeta. unfold serve, Wakatime.handler.
  destruct (unavailable isLocaleAvailable (get "locale" (queryStringParameters event))) eqn:?.
  { card_rejected. }
  unfold try_catch, bind, lift.
  destruct (fetchWakatimeStats (get "username" (queryStringParameters event)) (get "api_domain" (queryStringParameters event)) s)
    as [[stats|err] s1].
  - match goal with
    | |- context [renderWakatimeCard stats ?o] =>
        destruct (renderWakatimeCard stats o) as [text|err] eqn:?
    end.
    + card_rendered.
    + card_failed err ltac:(right; eauto).
  - card_failed err ltac:(left; reflexivity).
Qed.

(** X12.  In an answer with status 200 the headers are the content type and a [Cache-Control] made from the cache seconds: the [CACHE_SECONDS] of the environment when it parses to an integer other than zero, whatever the query asks for and without clamping; and otherwise the
    query's [cache_seconds], or the default, as clamped between six hours
    and two days.  [max-age] is half of [s-maxage]. *)
Theorem wakatime_cache_control
  (event : Event) (env : Env) (s : S)
  (response : HandlerResponse) (s' : S) :
  serve event env s = (Normal response, s') ->
  statusCode response = 200%Z ->
  safe (parseInt_value (get "CACHE_SECONDS" env)) ->
  let requested :=
    clampValue
      (parseInt_or (get "cache_seconds" (queryStringParameters event))
         (CARD_CACHE_SECONDS CONSTANTS))
      (SIX_HOURS CONSTANTS) (TWO_DAY CONSTANTS) in
  let cacheSeconds :=
    match parseInt_value (get "CACHE_SECONDS" env) with
    | Some n => if Z.eqb n 0 then requested else Some n
    | None => requested
    end in
  headers response =
    [("Content-Type", "image/svg+xml");
     ("Cache-Control",
      "max-age=" ++ half_toString cacheSeconds
      ++ ", s-maxage=" ++ Number_toString cacheSeconds
      ++ ", stale-while-revalidate="
      ++ Number_toString (Some (ONE_DAY CONSTANTS)))].
Proof.
  cbv zeta. unfold serve, Wakatime.handler. intros Hrun Hstatus _.
  rewrite <- environment_cache_seconds_spec.
  repeat match type of Hrun with
         | (if ?c then _ else _) _ = _ =>
             destruct c;
             [injection Hrun as <- _; discriminate Hstatus|]
         end.
  unfold try_catch, bind, lift in Hrun.
  destruct (fetchWakatimeStats (get "username" (queryStringParameters event)) (get "api_domain" (queryStringParameters event)) s)
    as [[stats|err] s1].
  - match type of Hrun with
    | context [renderWakatimeCard stats ?o] =>
        destruct (renderWakatimeCard stats o) as [text|err]
    end; injection Hrun as <- _;
      [reflexivity|discriminate Hstatus].
  - injection Hrun as <- _. discriminate Hstatus.
Qed.

End WakatimeFacts.

Section PinFacts.
Import Card Pin.

Variable S : Type.
Variable Repo : Type.
Variable Flag : Type.
Variable CONSTANTS : Constants.
Variable blacklist : list string.
Variable isLocaleAvailable : string -> bool.
Variable renderError : string -> option string -> ErrorOptions -> string.
Variable clampValue : Number -> Z -> Z -> Number.
Variable parseBoolean : option string -> Flag.
Variable fetchRepo : option string -> option string -> M Thrown S Repo.
Variable renderRepoCard : Repo -> Options Flag -> Completion Thrown string.

Let serve :=
  Pin.handler CONSTANTS blacklist isLocaleAvailable renderError clampValue
    parseBoolean fetchRepo renderRepoCard.

(** X13.  The pin function never throws and always answers with the
    SVG content type.  It answers 403 exactly when the username is
    blacklisted, whatever the locale, and 400 exactly when it is not and a
    locale is given that is not available: in both cases nothing is
    fetched and no [Cache-Control] is set.  Otherwise its only effect is
    the one fetch; it answers 200 with the rendered card, or 500, with the
    error [Cache-Control] and the error card of the thrown value, when
    the fetch or the renderer throws. *)
Theorem pin_answer (event : Event) (env : Env) (s : S) :
  let query := queryStringParameters event in
  let blacklisted := includes blacklist (get "username" query) in
  let unsupported := unavailable isLocaleAvailable (get "locale" query) in
  let fetched := fetchRepo (get "username" query) (get "repo" query) s in
  exists response s',
    serve event env s = (Normal response, s') /\
    get "Content-Type" (headers response) = Some "image/svg+xml" /\
    (statusCode response = 403%Z <-> blacklisted = true) /\
    (statusCode response = 400%Z <->
       blacklisted = false /\ unsupported = true) /\
    (blacklisted = true \/ unsupported = true ->
       s' = s /\ get "Cache-Control" (headers response) = None) /\
    (blacklisted = false -> unsupported = false ->
       s' = snd fetched /\
       ((statusCode response = 200%Z /\
         exists repoData options,
           fst fetched = Normal repoData /\
           renderRepoCard repoData options = Normal (body response)) \/
        (statusCode response = 500%Z /\
         get "Cache-Control" (headers response)
           = Some (error_cache_control CONSTANTS) /\
         exists err,
           body response
             = renderError (thrown_message err)
                 (thrown_secondaryMessage err) (error_options query) /\
           (fst fetched = Throw err \/
            exists repoData options,
              fst fetched = Normal repoData /\
              renderRepoCard repoData options = Throw err)))).
Proof.
  cbv zeta. unfold serve, Pin.handler.
  destruct (includes blacklist (get "username" (queryStringParameters event))) eqn:?.
  { card_rejected. }
  destruct (unavailable isLocaleAvailable (get "locale" (queryStringParameters event))) eqn:?.
  { card_rejected. }
  unfold try_catch, bind, lift.
  destruct (fetchRepo (get "username" (queryStringParameters event)) (get "repo" (queryStringParameters event)) s)
    as [[repoData|err] s1].
  - match goal with
    | |- context [renderRepoCard repoData ?o] =>
        destruct (renderRepoCard repoData o) as [text|err] eqn:?
    end.
    + card_rendered.
    + card_failed err ltac:(right; eauto).
  - card_failed err ltac:(left; reflexivity).
Qed.

(** X14.  In an answer with status 200 the headers are the content type and a [Cache-Control] made from the cache seconds: the [CACHE_SECONDS] of the environment when it parses to an integer other than zero, whatever the query asks for and without clamping; and otherwise the
    query's [cache_seconds], or the default, as clamped between one day
    and ten days. *)
Theorem pin_cache_control
  (event : Event) (env : Env) (s : S)
  (response : HandlerResponse) (s' : S) :
  serve event env s = (Normal response, s') ->
  statusCode response = 200%Z ->
  safe (parseInt_value (get "CACHE_SECONDS" env)) ->
  let requested :=
    clampValue
      (parseInt_or (get "cache_seconds" (queryStringParameters event))
         (PIN_CARD_CACHE_SECONDS CONSTANTS))
      (ONE_DAY CONSTANTS) (TEN_DAY CONSTANTS) in
  let cacheSeconds :=
    match parseInt_value (get "CACHE_SECONDS" env) with
    | Some n => if Z.eqb n 0 then requested else Some n
    | None => requested
    end in
  headers response =
    [("Content-Type", "image/svg+xml");
     ("Cache-Control",
      "max-age=" ++ Number_toString cacheSeconds
      ++ ", s-maxage=" ++ Number_toString cacheSeconds)].
Proof.
  cbv zeta. unfold serve, Pin.handler. intros Hrun Hstatus _.
  rewrite <- environment_cache_seconds_spec.
  repeat match type of Hrun with
         | (if ?c then _ else _) _ = _ =>
             destruct c;
             [injection Hrun as <- _; discriminate Hstatus|]
         end.
  unfold try_catch, bind, lift in Hrun.
  destruct (fetchRepo (get "username" (queryStringParameters event)) (get "repo" (queryStringParameters event)) s)
    as [[repoData|err] s1].
  - match type of Hrun with
    | context [renderRepoCard repoData ?o] =>
        destruct (renderRepoCard repoData o) as [text|err]
    end; injection Hrun as <- _;
      [reflexivity|discriminate Hstatus].
  - injection Hrun as <- _. discriminate Hstatus.
Qed.

End PinFacts.

Section GistFacts.
Import Card Gist.

Variable S : Type.
Variable GistData : Type.
Variable Flag : Type.
Variable CONSTANTS : Constants.
Variable isLocaleAvailable : string -> bool.
Variable renderError : string -> option string -> ErrorOptions -> string.
Variable clampValue : Number -> Z -> Z -> Number.
Variable parseBoolean : option string -> Flag.
Variable fetchGist : option string -> M Thrown S GistData.
Variable renderGistCard :
  GistData -> Options Flag -> Completion Thrown string.

Let serve :=
  Gist.handler CONSTANTS isLocaleAvailable renderError clampValue
    parseBoolean fetchGist renderGistCard.

(** X15.  The gist function never throws and always answers with the
    SVG content type.  It answers 400 exactly when a locale is given that
    is not available: then nothing is fetched and no [Cache-Control] is
    set.  Otherwise its only effect is the one fetch; it answers 200 with
    the rendered card, or 500, with the error [Cache-Control] and the
    error card of the thrown value, when the fetch or the renderer
    throws. *)
Theorem gist_answer (event : Event) (env : Env) (s : S) :
  let query := queryStringParameters event in
  let unsupported := unavailable isLocaleAvailable (get "locale" query) in
  let fetched := fetchGist (get "id" query) s in
  exists response s',
    serve event env s = (Normal response, s') /\
    get "Content-Type" (headers response) = Some "image/svg+xml" /\
    statusCode response <> 403%Z /\
    (statusCode response = 400%Z <->
       unsupported = true) /\
    (unsupported = true ->
       s' = s /\ get "Cache-Control" (headers response) = None) /\
    (unsupported = false ->
       s' = snd fetched /\
       ((statusCode response = 200%Z /\
         exists gistData options,
           fst fetched = Normal gistData /\
           renderGistCard gistData options = Normal (body response)) \/
        (statusCode response = 500%Z /\
         get "Cache-Control" (headers response)
           = Some (error_cache_control CONSTANTS) /\
         exists err,
           body response
             = renderError (thrown_message err)
                 (thrown_secondaryMessage err) (error_options query) /\
           (fst fetched = Throw err \/
            exists gistData options,
              fst fetched = Normal gistData /\
              renderGistCard gistData options = Throw err)))).
Proof.
  cbv zeta. unfold serve, Gist.handler.
  destruct (unavailable isLocaleAvailable (get "locale" (queryStringParameters event))) eqn:?.
  { card_rejected. }
  unfold try_catch, bind, lift.
  destruct (fetchGist (get "id" (queryStringParameters event)) s)
    as [[gistData|err] s1].
  - match goal with
    | |- context [renderGistCard gistData ?o] =>
        destruct (renderGistCard gistData o) as [text|err] eqn:?
    end.
    + card_rendered.
    + card_failed err ltac:(right; eauto).
  - card_failed err ltac:(left; reflexivity).
Qed.

(** X16.  In an answer with status 200 the headers are the content type and a [Cache-Control] made from the cache seconds: the [CACHE_SECONDS] of the environment when it parses to an integer other than zero, whatever the query asks for and without clamping; and otherwise the
    query's [cache_seconds], or two days, as clamped between two days and
    six days. *)
Theorem gist_cache_control
  (event : Event) (env : Env) (s : S)
  (response : HandlerResponse) (s' : S) :
  serve event env s = (Normal response, s') ->
  statusCode response = 200%Z ->
  safe (parseInt_value (get "CACHE_SECONDS" env)) ->
  let requested :=
    clampValue
      (parseInt_or (get "cache_seconds" (queryStringParameters event))
         (TWO_DAY CONSTANTS))
      (TWO_DAY CONSTANTS) (SIX_DAY CONSTANTS) in
  let cacheSeconds :=
    match parseInt_value (get "CACHE_SECONDS" env) with
    | Some n => if Z.eqb n 0 then requested else Some n
    | None => requested
    end in
  headers response =
    [("Content-Type", "image/svg+xml");
     ("Cache-Control",
      "max-age=" ++ Number_toString cacheSeconds
      ++ ", s-maxage=" ++ Number_toString cacheSeconds)].
Proof.
  cbv zeta. unfold serve, Gist.handler. intros Hrun Hstatus _.
  rewrite <- environment_cache_seconds_spec.
  repeat match type of Hrun with
         | (if ?c then _ else _) _ = _ =>
             destruct c;
             [injection Hrun as <- _; discriminate Hstatus|]
         end.
  unfold try_catch, bind, lift in Hrun.
  destruct (fetchGist (get "id" (queryStringParameters event)) s)
    as [[gistData|err] s1].
  - match type of Hrun with
    | context [renderGistCard gistData ?o] =>
        destruct (renderGistCard gistData o) as [text|err]
    end; injection Hrun as <- _;
      [reflexivity|discriminate Hstatus].
  - injection Hrun as <- _. discriminate Hstatus.
Qed.

End GistFacts.

Section StatsFacts.
Import Card Stats.

Variable S : Type.
Variable StatsData : Type.
Variable Flag : Type.
Variable CONSTANTS : Constants.
Variable blacklist : list string.
Variable isLocaleAvailable : string -> bool.
Variable renderError : string -> option string -> ErrorOptions -> string.
Variable clampValue : Number -> Z -> Z -> Number.
Variable parseBoolean : option string -> Flag.
Variable parseArray : option string -> list string.
Variable fetchStats :
  option string -> Flag -> list string -> bool -> bool -> bool
  -> M Thrown S StatsData.
Variable renderStatsCard :
  StatsData -> Options Flag -> Completion Thrown string.

Let serve :=
  Stats.handler CONSTANTS blacklist isLocaleAvailable renderError clampValue
    parseBoolean parseArray fetchStats renderStatsCard.

(** X17.  The stats function never throws and always answers with
    the SVG content type.  It answers 403 exactly when the username is
    blacklisted, whatever the locale, and 400 exactly when it is not and a
    locale is given that is not available: in both cases nothing is
    fetched and no [Cache-Control] is set.  Otherwise its only effect is
    the one fetch, which is asked for merged pull requests and for
    discussions exactly as the [show] parameter lists them; it answers
    200 with the rendered card, or 500, with the error [Cache-Control]
    and the error card of the thrown value, when the fetch or the
    renderer throws. *)
Theorem stats_answer (event : Event) (env : Env) (s : S) :
  let query := queryStringParameters event in
  let blacklisted := includes blacklist (get "username" query) in
  let unsupported := unavailable isLocaleAvailable (get "locale" query) in
  let fetched := fetchStats (get "username" query)
      (parseBoolean (get "include_all_commits" query))
      (parseArray (get "exclude_repo" query))
      (shows (parseArray (get "show" query)) "prs_merged"
       || shows (parseArray (get "show" query)) "prs_merged_percentage")
      (shows (parseArray (get "show" query)) "discussions_started")
      (shows (parseArray (get "show" query)) "discussions_answered") s in
  exists response s',
    serve event env s = (Normal response, s') /\
    get "Content-Type" (headers response) = Some "image/svg+xml" /\
    (statusCode response = 403%Z <-> blacklisted = true) /\
    (statusCode response = 400%Z <->
       blacklisted = false /\ unsupported = true) /\
    (blacklisted = true \/ unsupported = true ->
       s' = s /\ get "Cache-Control" (headers response) = None) /\
    (blacklisted = false -> unsupported = false ->
       s' = snd fetched /\
       ((statusCode response = 200%Z /\
         exists stats options,
           fst fetched = Normal stats /\
           renderStatsCard stats options = Normal (body response)) \/
        (statusCode response = 500%Z /\
         get "Cache-Control" (headers response)
           = Some (error_cache_control CONSTANTS) /\
         exists err,
           body response
             = renderError (thrown_message err)
                 (thrown_secondaryMessage err) (error_options query) /\
           (fst fetched = Throw err \/
            exists stats options,
              fst fetched = Normal stats /\
              renderStatsCard stats options = Throw err)))).
Proof.
  cbv zeta. unfold serve, Stats.handler.
  destruct (includes blacklist (get "username" (queryStringParameters event))) eqn:?.
  { card_rejected. }
  destruct (unavailable isLocaleAvailable (get "locale" (queryStringParameters event))) eqn:?.
  { card_rejected. }
  unfold try_catch, bind, lift.
  destruct (fetchStats (get "username" (queryStringParameters event))
      (parseBoolean (get "include_all_commits" (queryStringParameters event)))
      (parseArray (get "exclude_repo" (queryStringParameters event)))
      (shows (parseArray (get "show" (queryStringParameters event))) "prs_merged"
       || shows (parseArray (get "show" (queryStringParameters event))) "prs_merged_percentage")
      (shows (parseArray (get "show" (queryStringParameters event))) "discussions_started")
      (shows (parseArray (get "show" (queryStringParameters event))) "discussions_answered") s)
    as [[stats|err] s1].
  - match goal with
    | |- context [renderStatsCard stats ?o] =>
        destruct (renderStatsCard stats o) as [text|err] eqn:?
    end.
    + card_rendered.
    + card_failed err ltac:(right; eauto).
  - card_failed err ltac:(left; reflexivity).
Qed.

(** X18.  In an answer with status 200 the headers are the content type and a [Cache-Control] made from the cache seconds: the [CACHE_SECONDS] of the environment when it parses to an integer other than zero, whatever the query asks for and without clamping; and otherwise the
    query's [cache_seconds], or the default, as clamped between twelve
    hours and two days. *)
Theorem stats_cache_control
  (event : Event) (env : Env) (s : S)
  (response : HandlerResponse) (s' : S) :
  serve event env s = (Normal response, s') ->
  statusCode response = 200%Z ->
  safe (parseInt_value (get "CACHE_SECONDS" env)) ->
  let requested :=
    clampValue
      (parseInt_or (get "cache_seconds" (queryStringParameters event))
         (CARD_CACHE_SECONDS CONSTANTS))
      (TWELVE_HOURS CONSTANTS) (TWO_DAY CONSTANTS) in
  let cacheSeconds :=
    match parseInt_value (get "CACHE_SECONDS" env) with
    | Some n => if Z.eqb n 0 then requested else Some n
    | None => requested
    end in
  headers response =
    [("Content-Type", "image/svg+xml");
     ("Cache-Control",
      "max-age=" ++ Number_toString cacheSeconds
      ++ ", s-maxage=" ++ Number_toString cacheSeconds
      ++ ", stale-while-revalidate="
      ++ Number_toString (Some (ONE_DAY CONSTANTS)))].
Proof.
  cbv zeta. unfold serve, Stats.handler. intros Hrun Hstatus _.
  rewrite <- environment_cache_seconds_spec.
  repeat match type of Hrun with
         | (if ?c then _ else _) _ = _ =>
             destruct c;
             [injection Hrun as <- _; discriminate Hstatus|]
         end.
  unfold try_catch, bind, lift in Hrun.
  destruct (fetchStats (get "username" (queryStringParameters event))
      (parseBoolean (get "include_all_commits" (queryStringParameters event)))
      (parseArray (get "exclude_repo" (queryStringParameters event)))
      (shows (parseArray (get "show" (queryStringParameters event))) "prs_merged"
       || shows (parseArray (get "show" (queryStringParameters event))) "prs_merged_percentage")
      (shows (parseArray (get "show" (queryStringParameters event))) "discussions_started")
      (shows (parseArray (get "show" (queryStringParameters event))) "discussions_answered") s)
    as [[stats|err] s1].
  - match type of Hrun with
    | context [renderStatsCard stats ?o] =>
        destruct (renderStatsCard stats o) as [text|err]
    end; injection Hrun as <- _;
      [reflexivity|discriminate Hstatus].
  - injection Hrun as <- _. discriminate Hstatus.
Qed.

End StatsFacts.

Section TopLangsFacts.
Import Card TopLangs.

Variable S : Type.
Variable Langs : Type.
Variable Flag : Type.
Variable CONSTANTS : Constants.
Variable blacklist : list string.
Variable isLocaleAvailable : string -> bool.
Variable renderError : string -> option string -> ErrorOptions -> string.
Variable parseBoolean : option string -> Flag.
Variable parseArray : option string -> list string.
Variable fetchTopLanguages :
  option string -> list string -> option string -> option string
  -> M Thrown S Langs.
Variable renderTopLanguages :
  Langs -> Options Flag -> Completion Thrown string.

Let serve :=
  TopLangs.handler CONSTANTS blacklist isLocaleAvailable renderError
    parseBoolean parseArray fetchTopLanguages renderTopLanguages.

(** X19.  The top languages function never throws and always
    answers with the SVG content type.  It answers 403 exactly when the
    username is blacklisted, and 400 exactly when it is not and either a
    locale is given that is not available or a layout is given that is
    not one of the five known ones: in these cases nothing is fetched and
    no [Cache-Control] is set.  Otherwise its only effect is the one
    fetch; it answers 200 with the rendered card, or 500, with the error
    [Cache-Control] and the error card of the thrown value, when the
    fetch or the renderer throws. *)
Theorem top_langs_answer (event : Event) (env : Env) (s : S) :
  let query := queryStringParameters event in
  let blacklisted := includes blacklist (get "username" query) in
  let unsupported := unavailable isLocaleAvailable (get "locale" query) in
  let misshapen := incorrect_layout (get "layout" query) in
  let fetched := fetchTopLanguages (get "username" query)
      (parseArray (get "exclude_repo" query))
      (get "size_weight" query) (get "count_weight" query) s in
  exists response s',
    serve event env s = (Normal response, s') /\
    get "Content-Type" (headers response) = Some "image/svg+xml" /\
    (statusCode response = 403%Z <-> blacklisted = true) /\
    (statusCode response = 400%Z <->
       (blacklisted = false /\ unsupported = true) \/
       (blacklisted = false /\ unsupported = false /\ misshapen = true)) /\
    (blacklisted = true \/ unsupported = true \/ misshapen = true ->
       s' = s /\ get "Cache-Control" (headers response) = None) /\
    (blacklisted = false -> unsupported = false -> misshapen = false ->
       s' = snd fetched /\
       ((statusCode response = 200%Z /\
         exists topLangs options,
           fst fetched = Normal topLangs /\
           renderTopLanguages topLangs options = Normal (body response)) \/
        (statusCode response = 500%Z /\
         get "Cache-Control" (headers response)
           = Some (error_cache_control CONSTANTS) /\
         exists err,
           body response
             = renderError (thrown_message err)
                 (thrown_secondaryMessage err) (error_options query) /\
           (fst fetched = Throw err \/
            exists topLangs options,
              fst fetched = Normal topLangs /\
              renderTopLanguages topLangs options = Throw err)))).
Proof.
  cbv zeta. unfold serve, TopLangs.handler.
  destruct (includes blacklist (get "username" (queryStringParameters event))) eqn:?.
  { card_rejected. }
  destruct (unavailable isLocaleAvailable (get "locale" (queryStringParameters event))) eqn:?.
  { card_rejected. }
  destruct (incorrect_layout (get "layout" (queryStringParameters event))) eqn:?.
  { card_rejected. }
  unfold try_catch, bind, lift.
  destruct (fetchTopLanguages (get "username" (queryStringParameters event))
      (parseArray (get "exclude_repo" (queryStringParameters event)))
      (get "size_weight" (queryStringParameters event)) (get "count_weight" (queryStringParameters event)) s)
    as [[topLangs|err] s1].
  - match goal with
    | |- context [renderTopLanguages topLangs ?o] =>
        destruct (renderTopLanguages topLangs o) as [text|err] eqn:?
    end.
    + card_rendered.
    + card_failed err ltac:(right; eauto).
  - card_failed err ltac:(left; reflexivity).
Qed.

(** X20.  In an answer with status 200 the headers are the content type and a [Cache-Control] made from the cache seconds: the [CACHE_SECONDS] of the environment when it parses to an integer other than zero, whatever the query asks for and without clamping; and otherwise the
    integer that the query's [cache_seconds] starts with, or the default:
    this function does not clamp, and a [cache_seconds] without a leading
    number gives [NaN] in both places.  [max-age] is half of
    [s-maxage]. *)
Theorem top_langs_cache_control
  (event : Event) (env : Env) (s : S)
  (response : HandlerResponse) (s' : S) :
  serve event env s = (Normal response, s') ->
  statusCode response = 200%Z ->
  safe (parseInt_value (get "CACHE_SECONDS" env)) ->
  safe (parseInt_or (get "cache_seconds" (queryStringParameters event))
          (TOP_LANGS_CACHE_SECONDS CONSTANTS)) ->
  let requested :=
    parseInt_or (get "cache_seconds" (queryStringParameters event))
      (TOP_LANGS_CACHE_SECONDS CONSTANTS) in
  let cacheSeconds :=
    match parseInt_value (get "CACHE_SECONDS" env) with
    | Some n => if Z.eqb n 0 then requested else Some n
    | None => requested
    end in
  headers response =
    [("Content-Type", "image/svg+xml");
     ("Cache-Control",
      "max-age=" ++ half_toString cacheSeconds
      ++ ", s-maxage=" ++ Number_toString cacheSeconds)].
Proof.
  cbv zeta. unfold serve, TopLangs.handler. intros Hrun Hstatus _ _.
  rewrite <- environment_cache_seconds_spec.
  repeat match type of Hrun with
         | (if ?c then _ else _) _ = _ =>
             destruct c;
             [injection Hrun as <- _; discriminate Hstatus|]
         end.
  unfold try_catch, bind, lift in Hrun.
  destruct (fetchTopLanguages (get "username" (queryStringParameters event))
      (parseArray (get "exclude_repo" (queryStringParameters event)))
      (get "size_weight" (queryStringParameters event)) (get "count_weight" (queryStringParameters event)) s)
    as [[topLangs|err] s1].
  - match type of Hrun with
    | context [renderTopLanguages topLangs ?o] =>
        destruct (renderTopLanguages topLangs o) as [text|err]
    end; injection Hrun as <- _;
      [reflexivity|discriminate Hstatus].
  - injection Hrun as <- _. discriminate Hstatus.
Qed.

End TopLangsFacts.

(* ===================================================================== *)
(** * The further properties on sample runs *)
(* ===================================================================== *)

Section MoreSampleRuns.
Import PatInfo Samples MoreSamples.

Lemma lists_partition_the_pool_witness :
  Permutation
    (validPATs (report env_mixed) ++ expiredPATs (report env_mixed)
     ++ exhaustedPATs (report env_mixed) ++ suspendedPATs (report env_mixed)
     ++ errorPATs (report env_mixed))%list
    (getAllPATs env_mixed) /\
  NoDup
    (validPATs (report env_mixed) ++ expiredPATs (report env_mixed)
     ++ exhaustedPATs (report env_mixed) ++ suspendedPATs (report env_mixed)
     ++ errorPATs (report env_mixed))%list.
Proof.
  apply (@lists_partition_the_pool unit clock parse dateDiff_minutes
           network [] env_mixed tt (report env_mixed) (snd (run env_mixed))).
  - distinct_strings.
  - vm_compute. reflexivity.
Defined.

Lemma lists_agree_with_details_witness :
  (In "PAT_3" (validPATs (report env_mixed)) <->
     exists d, get "PAT_3" (details (report env_mixed)) = Some d
               /\ status d = "valid") /\
  (In "PAT_3" (expiredPATs (report env_mixed)) <->
     exists d, get "PAT_3" (details (report env_mixed)) = Some d
               /\ status d = "expired") /\
  (In "PAT_3" (exhaustedPATs (report env_mixed)) <->
     exists d, get "PAT_3" (details (report env_mixed)) = Some d
               /\ status d = "exhausted") /\
  (In "PAT_3" (suspendedPATs (report env_mixed)) <->
     exists d, get "PAT_3" (details (report env_mixed)) = Some d
               /\ status d = "suspended") /\
  (In "PAT_3" (errorPATs (report env_mixed)) <->
     exists d, get "PAT_3" (details (report env_mixed)) = Some d
               /\ status d = "error").
Proof.
  apply (@lists_agree_with_details unit clock parse dateDiff_minutes
           network [] env_mixed tt (report env_mixed) (snd (run env_mixed))
           "PAT_3").
  - distinct_strings.
  - vm_compute. reflexivity.
Defined.

Lemma valid_classification_witness :
  (In "PAT_2" (validPATs (report env_mixed)) <->
     hasErrors (quota 4999) = false
     /\ remaining_is_zero (quota 4999) = false) /\
  (In "PAT_2" (validPATs (report env_mixed)) ->
     exists rl : RateLimit,
       rateLimit_of (quota 4999) = Some rl /\
       get "PAT_2" (details (report env_mixed))
         = Some (Valid_detail (remaining rl))).
Proof.
  apply (@valid_classification unit clock parse dateDiff_minutes network []
           env_mixed tt (report env_mixed) (snd (run env_mixed))
           good_call (quota 4999)).
  - distinct_strings.
  - vm_compute. reflexivity.
  - in_list.
  - reflexivity.
Defined.

Lemma error_classification_witness :
  (In "PAT_1" (errorPATs (report env_odd)) <->
     hasErrors not_found_and_no_quota = true /\
     strict_eq (errorType not_found_and_no_quota) "RATE_LIMITED" = false) /\
  (In "PAT_1" (errorPATs (report env_odd)) ->
     exists (e : GraphQLError) (rest : list GraphQLError),
       errors (response_data not_found_and_no_quota) = Some (e :: rest) /\
       get "PAT_1" (details (report env_odd))
         = Some (Error_detail (type e) (error_message e))).
Proof.
  apply (@error_classification unit clock parse dateDiff_minutes network []
           env_odd tt (report env_odd) (snd (run env_odd))
           odd_call not_found_and_no_quota).
  - distinct_strings.
  - vm_compute. reflexivity.
  - in_list.
  - reflexivity.
Defined.

Lemma malformed_response_aborts_probe_witness :
  exists e : Error,
    fst hollow_run = Throw e /\
    response_data_message e = None /\
    (exists before,
        attempts (snd hollow_run) = (before ++ [hollow_call])%list) /\
    PatInfo.handler clock parse dateDiff_minutes hollow_wire env_hollow
      (start tt) =
      (Normal {| statusCode := 500;
                 headers := [("Content-Type", "text/plain");
                             ("Cache-Control", "no-store")];
                 body := "Something went wrong: " ++ message e |},
       snd hollow_run).
Proof.
  apply (@malformed_response_aborts_probe unit clock parse dateDiff_minutes
           hollow_wire env_hollow tt hollow_call hollow).
  - in_list.
  - reflexivity.
  - reflexivity.
Defined.

Lemma empty_pool_report_witness :
  getPATInfo clock parse dateDiff_minutes (uptimeFetcher wire) []
    env_without_credentials (start tt) =
    (Normal {| validPATs := []; expiredPATs := []; exhaustedPATs := [];
               suspendedPATs := []; errorPATs := []; details := [] |},
     start tt) /\
  PatInfo.handler clock parse dateDiff_minutes wire
    env_without_credentials (start tt) =
    (Normal {| statusCode := 200;
               headers := [("Content-Type", "application/json");
                           ("Cache-Control", "max-age=0, s-maxage=300")];
               body :=
                 Json.stringify
                   (PATInfo_toJson
                      {| validPATs := []; expiredPATs := [];
                         exhaustedPATs := []; suspendedPATs := [];
                         errorPATs := []; details := [] |}) 2 |},
     start tt).
Proof.
  apply (@empty_pool_report unit clock parse dateDiff_minutes wire
           env_without_credentials (start tt)).
  reflexivity.
Defined.

End MoreSampleRuns.

Section CardSampleRuns.
Import Card MoreSamples.

(** The environment asks for 7200 seconds; the query's 100 is not used. *)
Lemma wakatime_cache_control_witness :
  headers (answer_of wakatime_run) =
    [("Content-Type", "image/svg+xml");
     ("Cache-Control",
      "max-age=3600, s-maxage=7200, stale-while-revalidate=86400")].
Proof.
  pose proof (@wakatime_cache_control nat unit bool constants available
                error_card clamp flag one_entry (fun _ _ => fetched) card
                event env_with_cache_seconds 0%nat
                (answer_of wakatime_run) 1%nat) as H.
  apply H; vm_compute; reflexivity.
Defined.

Lemma pin_cache_control_witness :
  headers (answer_of pin_run) =
    [("Content-Type", "image/svg+xml");
     ("Cache-Control", "max-age=7200, s-maxage=7200")].
Proof.
  pose proof (@pin_cache_control nat unit bool constants ["spammer"]
                available error_card clamp flag (fun _ _ => fetched) card
                event env_with_cache_seconds 0%nat
                (answer_of pin_run) 1%nat) as H.
  apply H; vm_compute; reflexivity.
Defined.

Lemma gist_cache_control_witness :
  headers (answer_of gist_run) =
    [("Content-Type", "image/svg+xml");
     ("Cache-Control", "max-age=7200, s-maxage=7200")].
Proof.
  pose proof (@gist_cache_control nat unit bool constants available
                error_card clamp flag (fun _ => fetched) card
                event env_with_cache_seconds 0%nat
                (answer_of gist_run) 1%nat) as H.
  apply H; vm_compute; reflexivity.
Defined.

(** No [CACHE_SECONDS] in the environment: the query's 100 is clamped to
    twelve hours. *)
Lemma stats_cache_control_witness :
  headers (answer_of stats_run) =
    [("Content-Type", "image/svg+xml");
     ("Cache-Control",
      "max-age=43200, s-maxage=43200, stale-while-revalidate=86400")].
Proof.
  pose proof (@stats_cache_control nat unit bool constants ["spammer"]
                available error_card clamp flag one_entry
                (fun _ _ _ _ _ _ => fetched) card
                event [] 0%nat (answer_of stats_run) 1%nat) as H.
  apply H; vm_compute; reflexivity.
Defined.

(** No [CACHE_SECONDS] in the environment: the query's 100 is used as it
    is. *)
Lemma top_langs_cache_control_witness :
  headers (answer_of top_langs_run) =
    [("Content-Type", "image/svg+xml");
     ("Cache-Control", "max-age=50, s-maxage=100")].
Proof.
  pose proof (@top_langs_cache_control nat unit bool constants ["spammer"]
                available error_card flag one_entry
                (fun _ _ _ _ => fetched) card
                event [] 0%nat (answer_of top_langs_run) 1%nat) as H.
  apply H; vm_compute; reflexivity.
Defined.

End CardSampleRuns.
